(** * tuntihinta-web: the price page of [src/pages/index.tsx]

    A shallow embedding of the server-side assembly of the hourly price
    series ([getStaticProps]), of the refresh interval it hands to the page
    cache, of the lookup of the current hour ([findCurrentTimeIndex]) and of
    the chart annotations ([annotateCurrentTime], [annotateDayChanges]).

    Conventions.
    - A JavaScript [Date] is its time value: [Some t] with [t] the number of
      milliseconds since the epoch, or [None] for an Invalid Date (NaN).
      The +-8.64e15 ms range limit of time values is not modelled.
    - The fields of a date in UTC follow ECMAScript's Day, YearFromTime,
      MonthFromTime, DateFromTime, MakeDay and MakeDate.  The conversion
      between day numbers and civil dates is evaluated on sample dates
      below; no statement relies on more of it than that.
    - What the page takes from the host (Date.parse, the Intl formatting of
      a date in the Europe/Helsinki zone, floating point prices) is the
      class [Runtime]; [Helsinki.runtime] is one instance of it, used where
      a statement is evaluated on concrete data.
    - The clock ([new Date()]) and the object store are explicit arguments.
    - A call that can throw returns a [Completion]. *)

From Stdlib Require Import ZArith List String Ascii Bool Lia QArith Qabs Qround Sorted.
From Stdlib Require Import DecimalString DecimalNat.
Import ListNotations.

Local Open Scope string_scope.
Local Open Scope list_scope.
Local Open Scope Z_scope.

(** ** Completions: a returned value or a thrown exception *)

Inductive Exn : Type := TypeError | SyntaxError.

Inductive Completion (A : Type) : Type :=
| Return (a : A)
| Throw (e : Exn).

Arguments Return {A} a.
Arguments Throw {A} e.

Definition bind {A B : Type} (c : Completion A) (k : A -> Completion B)
  : Completion B :=
  match c with
  | Return a => k a
  | Throw e => Throw e
  end.

Notation "x <- c ;; k" := (bind c (fun x => k))
  (at level 61, c at next level, right associativity).

Fixpoint mapM {A B : Type} (f : A -> Completion B) (l : list A)
  : Completion (list B) :=
  match l with
  | [] => Return []
  | a :: l' => b <- f a ;; bs <- mapM f l' ;; Return (b :: bs)
  end.

(** ** Array helpers *)

(** [arr.slice(-k)]: the last [k] elements (all of them when there are fewer). *)
Definition slice_last {A : Type} (k : nat) (arr : list A) : list A :=
  skipn (List.length arr - k) arr.

(** [arr.slice(0, -1)]: everything but the last element. *)
Definition slice_init {A : Type} (arr : list A) : list A := removelast arr.

(** [arr.findIndex(p)]: the first index whose element satisfies [p], else -1. *)
Fixpoint findIndex_from {A : Type} (p : A -> bool) (i : Z) (arr : list A) : Z :=
  match arr with
  | [] => -1
  | a :: arr' => if p a then i else findIndex_from p (i + 1) arr'
  end.

Definition findIndex {A : Type} (p : A -> bool) (arr : list A) : Z :=
  findIndex_from p 0 arr.

(** ** Dates in UTC *)

Definition Date : Type := option Z.

Definition msPerDay : Z := 86400000.
Definition msPerHour : Z := 3600000.
Definition msPerMinute : Z := 60000.
Definition msPerSecond : Z := 1000.

Definition Day (t : Z) : Z := t / msPerDay.
Definition TimeWithinDay (t : Z) : Z := t mod msPerDay.

(** Day number (days since 1970-01-01) of the civil date [y]-[m]-[d], with
    [m] in 1..12, in the proleptic Gregorian calendar. *)
Definition days_from_civil (y m d : Z) : Z :=
  let y' := if m <=? 2 then y - 1 else y in
  let era := y' / 400 in
  let yoe := y' - era * 400 in
  let mp := if 2 <? m then m - 3 else m + 9 in
  let doy := (153 * mp + 2) / 5 + d - 1 in
  let doe := yoe * 365 + yoe / 4 - yoe / 100 + doy in
  era * 146097 + doe - 719468.

(** Civil date (year, month 1..12, day 1..31) of a day number. *)
Definition civil_from_days (z : Z) : Z * Z * Z :=
  let z' := z + 719468 in
  let era := z' / 146097 in
  let doe := z' - era * 146097 in
  let yoe := (doe - doe / 1460 + doe / 36524 - doe / 146096) / 365 in
  let doy := doe - (365 * yoe + yoe / 4 - yoe / 100) in
  let mp := (5 * doy + 2) / 153 in
  let d := doy - (153 * mp + 2) / 5 + 1 in
  let m := if mp <? 10 then mp + 3 else mp - 9 in
  ((if m <=? 2 then yoe + era * 400 + 1 else yoe + era * 400), m, d).

Definition YearFromTime (t : Z) : Z :=
  let '(y, _, _) := civil_from_days (Day t) in y.

(** Months count from 0, as in ECMAScript. *)
Definition MonthFromTime (t : Z) : Z :=
  let '(_, m, _) := civil_from_days (Day t) in m - 1.

Definition DateFromTime (t : Z) : Z :=
  let '(_, _, d) := civil_from_days (Day t) in d.

(** 0 is Sunday; 1970-01-01 was a Thursday. *)
Definition WeekDay (t : Z) : Z := (Day t + 4) mod 7.

Definition MakeTime (hour min sec ms : Z) : Z :=
  hour * msPerHour + min * msPerMinute + sec * msPerSecond + ms.

Definition MakeDay (year month date : Z) : Z :=
  let ym := year + month / 12 in
  let mn := month mod 12 in
  days_from_civil ym (mn + 1) 1 + date - 1.

Definition MakeDate (day time : Z) : Z := day * msPerDay + time.

(** Getters give NaN ([None]) on an Invalid Date. *)
Definition getTime (d : Date) : option Z := d.
Definition getUTCDate (d : Date) : option Z := option_map DateFromTime d.
Definition getUTCMonth (d : Date) : option Z := option_map MonthFromTime d.

(** The setters are only used on valid dates; they are given on time
    values. *)
Definition setUTCHours (t : Z) (hour min sec ms : Z) : Z :=
  MakeDate (Day t) (MakeTime hour min sec ms).

Definition setUTCDate (t : Z) (date : Z) : Z :=
  MakeDate (MakeDay (YearFromTime t) (MonthFromTime t) date) (TimeWithinDay t).

(** JavaScript's [a > b], [a >= b] and [a < b] on numbers: false when
    either side is NaN. *)
Definition num_gt (a b : option Z) : bool :=
  match a, b with Some u, Some v => v <? u | _, _ => false end.
Definition num_ge (a b : option Z) : bool :=
  match a, b with Some u, Some v => v <=? u | _, _ => false end.
Definition num_lt (a b : option Z) : bool :=
  match a, b with Some u, Some v => u <? v | _, _ => false end.

Definition num_add (a : option Z) (b : Z) : option Z :=
  option_map (fun u => u + b) a.

(** ** What the page takes from its host *)

(** [number] is the type of a price: an IEEE double in the page. *)
Class Runtime (number : Type) : Type := {
  (** [price * 1.24] *)
  times_1_24 : number -> number;
  (** [n.toFixed(digits)] *)
  toFixed : number -> nat -> string;
  (** [Date.parse]: the time value of a date string, [None] for NaN *)
  Date_parse : string -> option Z;
  (** [toLocaleDateString('sv-SE', { timeZone: "Europe/Helsinki" })] of a
      valid date, from its time value *)
  localDate : Z -> string;
  (** [toLocaleDateString('fi-FI', { weekday: 'long', timeZone:
      "Europe/Helsinki" })] of a valid date, from its time value *)
  localWeekday : Z -> string
}.

(** [new Date(x)] on a string. *)
Definition Date_new `{Runtime} (x : string) : Date := Date_parse x.

(** Both formatters answer "Invalid Date" on an Invalid Date. *)
Definition finnishDate `{Runtime} (date : Date) : string :=
  match date with
  | Some t => localDate t
  | None => "Invalid Date"
  end.

Definition finnishWeekday `{Runtime} (date : Date) : string :=
  match date with
  | Some t => localWeekday t
  | None => "Invalid Date"
  end.

(** ** Data *)

Record HourPrice (number : Type) : Type := {
  startTime : string;
  price : number
}.

Arguments Build_HourPrice {number} startTime price.
Arguments startTime {number} _.
Arguments price {number} _.

Record DayPrice (number : Type) : Type := {
  date : string;
  hourPrices : list (HourPrice number)
}.

Arguments Build_DayPrice {number} date hourPrices.
Arguments date {number} _.
Arguments hourPrices {number} _.

(** An entry of the chart's dataset. *)
Module Point.
Record t (number : Type) : Type := {
  x : string;
  y : number;
  label : string
}.

Arguments Build_t {number} x y label.
Arguments x {number} _.
Arguments y {number} _.
Arguments label {number} _.
End Point.

(** The body of a stored object is kept as what [JSON.parse] makes of its
    text: a day of prices, or a SyntaxError. *)
Inductive ObjectBody (number : Type) : Type :=
| json (d : DayPrice number)
| malformed.

Arguments json {number} d.
Arguments malformed {number}.

Record GetObjectOutput (number : Type) : Type := {
  Body : option (ObjectBody number)
}.

Arguments Build_GetObjectOutput {number} Body.
Arguments Body {number} _.

Inductive PromiseSettledResult (T : Type) : Type :=
| fulfilled (value : T)
| rejected.

Arguments fulfilled {T} value.
Arguments rejected {T}.

Definition isFulfilled {T : Type} (v : PromiseSettledResult T) : bool :=
  match v with
  | fulfilled _ => true
  | rejected => false
  end.

(** [.filter(isFulfilled)]: the guard narrows the element type, so what is
    left is the list of the fulfilled values. *)
Fixpoint filter_isFulfilled {T : Type} (l : list (PromiseSettledResult T))
  : list T :=
  match l with
  | [] => []
  | v :: l' =>
      match v with
      | fulfilled value => value :: filter_isFulfilled l'
      | rejected => filter_isFulfilled l'
      end
  end.

(** [JSON.parse(value.Body?.toString() ?? '{hourPrices: []}')].  The text
    used for a missing body has an unquoted key: [JSON.parse] rejects it. *)
Definition JSON_parse_Body {number : Type} (value : GetObjectOutput number)
  : Completion (DayPrice number) :=
  match Body value with
  | Some (json d) => Return d
  | Some malformed => Throw SyntaxError
  | None => Throw SyntaxError
  end.

(** What [getStaticProps] returns: the dataset of the chart and the number
    of seconds the page stays valid.  The colours of the bars and the
    placement of their labels are left out. *)
Record Props (number : Type) : Type := {
  data : list (Point.t number);
  revalidate : Z
}.

Arguments Build_Props {number} data revalidate.
Arguments data {number} _.
Arguments revalidate {number} _.

(** ** [getStaticProps] *)

Section Server.
Context {number : Type} `{RT : Runtime number}.

(** The object store: the outcome of [getObject] for a key. *)
Variable getObject : string -> PromiseSettledResult (GetObjectOutput number).

Definition dateStrings (now : Z) : list string :=
  map (fun i => finnishDate (Some (now + i * 24 * 60 * 60 * 1000)))
      [-1; 0; 1].

Definition requests (now : Z)
  : list (PromiseSettledResult (GetObjectOutput number)) :=
  map (fun date => getObject (date ++ ".json")%string) (dateStrings now).

(** The fulfilled requests that are kept. *)
Definition retained (now : Z) : list (GetObjectOutput number) :=
  slice_last 2 (filter_isFulfilled (requests now)).

Definition results (now : Z) : Completion (list (DayPrice number)) :=
  mapM JSON_parse_Body (retained now).

Definition toPoint (e : HourPrice number) : Point.t number :=
  {| Point.x := startTime e;
     Point.y := times_1_24 (price e);
     Point.label := toFixed (times_1_24 (price e)) 0 |}.

Definition dataset (results : list (DayPrice number))
  : list (Point.t number) :=
  flat_map (fun d => map toPoint (hourPrices d)) results.

(** [now] is a valid date, and so is [nextUpdate]. *)
Definition nextUpdate (now : Z) (lastStartTime : Date) : Z :=
  let nextUpdate := setUTCHours now 12 0 0 0 in
  if num_gt (getUTCDate lastStartTime) (getUTCDate (Some now))
     || num_gt (getUTCMonth lastStartTime) (getUTCMonth (Some now))
  then setUTCDate nextUpdate (DateFromTime now + 1)
  else nextUpdate.

Definition dataValidForSeconds (now : Z) (lastStartTime : Date) : Z :=
  Z.max ((nextUpdate now lastStartTime - now) / 1000) 60.

(** [dataset.slice(-1)[0].x] throws a TypeError on an empty dataset. *)
Definition getStaticProps (now : Z) : Completion (Props number) :=
  results <- results now ;;
  let dataset := dataset results in
  match slice_last 1 dataset with
  | [] => Throw TypeError
  | last :: _ =>
      let lastStartTime := Date_new (Point.x last) in
      Return {| data := dataset;
                revalidate := dataValidForSeconds now lastStartTime |}
  end.

End Server.

(** ** The current hour and the annotations of the chart *)

(** Options of chartjs-plugin-annotation, by their [type]. *)
Inductive AnnotationOptions : Type :=
| Box (xMin xMax yMin yMax : Q) (backgroundColor : string) (borderWidth : Q)
| Line (yMin yMax xMin xMax : Q) (borderColor : string)
| Label (xValue : Q) (position : string) (yValue : Q) (content : string)
        (color : string).

Definition maxPrice : Q := 100.

(** An array index as a JavaScript number. *)
Definition num_of_index (i : nat) : Q := inject_Z (Z.of_nat i).

(** A string is truthy when it is not empty. *)
Definition truthy (s : string) : bool := negb (s =? "")%string.

Record accumulator : Type := {
  lastDate : string;
  indices : list nat
}.

Section Client.
Context {number : Type} `{RT : Runtime number}.

(** The entry's hour holds [now]: [now >= startTime && now < endTime]. *)
Definition isCurrent (now : Z) (p : Point.t number) : bool :=
  let startTime := Date_new (Point.x p) in
  let endTime : Date := num_add (getTime startTime) (60 * 60 * 1000) in
  num_ge (Some now) (getTime startTime) && num_lt (Some now) (getTime endTime).

Definition findCurrentTimeIndex (now : Z) (data : list (Point.t number)) : Z :=
  let currentTimeIndex := findIndex (isCurrent now) data in
  currentTimeIndex.

Definition annotateCurrentTime (darkMode : bool) (now : Z)
           (data : list (Point.t number)) : option AnnotationOptions :=
  let currentIndex := findCurrentTimeIndex now data in
  if currentIndex =? -1 then None
  else Some (Box (inject_Z currentIndex - 0.5) (inject_Z currentIndex + 0.5)
                 0 maxPrice
                 (if darkMode then "rgba(255,255,255, 0.3)"
                  else "rgba(205, 237, 246, 0.45)")
                 0).

(** The callback of the [reduce] of [annotateDayChanges]. *)
Definition dayChange (acc : accumulator) (xi : Point.t number * nat) : accumulator :=
  let '(p, i) := xi in
  let date := finnishDate (Date_new (Point.x p)) in
  if negb (lastDate acc =? date)%string then
    {| lastDate := date;
       indices := if truthy (lastDate acc) then indices acc ++ [i]
                  else indices acc |}
  else acc.

Definition foo (data : list (Point.t number)) : accumulator :=
  fold_left dayChange (combine data (seq 0 (List.length data)))
            {| lastDate := ""; indices := [] |}.

Definition dayChangeColor (darkMode : bool) : string :=
  if darkMode then "rgba(255,255,255,0.5)" else "rgba(0,0,0,0.5)".

Definition dayChangeLine (darkMode : bool) (i : nat) : AnnotationOptions :=
  Line 0 maxPrice (num_of_index i - 0.5) (num_of_index i - 0.5)
       (dayChangeColor darkMode).

(** [data[i].x] throws a TypeError when [i] is not an index of [data]. *)
Definition dayChangeLabel (darkMode : bool) (data : list (Point.t number)) (i : nat)
  : Completion AnnotationOptions :=
  match nth_error data i with
  | Some p =>
      Return (Label (num_of_index i + 1) "start" (maxPrice - 1)
                    (finnishWeekday (Date_new (Point.x p)))
                    (dayChangeColor darkMode))
  | None => Throw TypeError
  end.

Definition annotateDayChanges (darkMode : bool) (data : list (Point.t number))
  : Completion (list AnnotationOptions) :=
  let foo := foo data in
  let a1 := map (dayChangeLine darkMode) (indices foo) in
  if (0 <? List.length data)%nat then
    labels <- mapM (dayChangeLabel darkMode data) (0%nat :: indices foo) ;;
    let a2 := slice_init labels in
    Return (a1 ++ a2)
  else Return a1.

End Client.

(** ** One host: ISO date strings, the EU summer time rule, exact prices *)

Module Helsinki.

Definition digit (n : Z) : string :=
  String (ascii_of_nat (48 + Z.to_nat (n mod 10))) "".

(** The last [width] decimal digits of [n], zero padded. *)
Fixpoint digits (width : nat) (n : Z) : string :=
  match width with
  | O => ""
  | S w => (digits w (n / 10) ++ digit n)%string
  end.

(** The decimal digits of a natural number, at least one. *)
Fixpoint decimal (fuel : nat) (n : Z) : string :=
  match fuel with
  | O => digit n
  | S f => if n <? 10 then digit n else (decimal f (n / 10) ++ digit n)%string
  end.

Definition digit_value (c : ascii) : option Z :=
  let n := Z.of_nat (nat_of_ascii c) in
  if (48 <=? n) && (n <=? 57) then Some (n - 48) else None.

(** The number written by the first [k] characters of [s], all digits,
    and what follows them. *)
Fixpoint read_digits (k : nat) (acc : Z) (s : string) : option (Z * string) :=
  match k with
  | O => Some (acc, s)
  | S k' =>
      match s with
      | String c s' =>
          match digit_value c with
          | Some v => read_digits k' (10 * acc + v) s'
          | None => None
          end
      | EmptyString => None
      end
  end.

Definition expect (c : ascii) (s : string) : option string :=
  match s with
  | String c' s' => if Ascii.eqb c c' then Some s' else None
  | EmptyString => None
  end.

Definition days_in_month (y m : Z) : Z :=
  days_from_civil (y + m / 12) (m mod 12 + 1) 1 - days_from_civil y m 1.

(** [toISOString] of a valid date with a year in 0..9999. *)
Definition toISOString (t : Z) : string :=
  let '(y, m, d) := civil_from_days (Day t) in
  let w := TimeWithinDay t in
  (digits 4 y ++ "-" ++ digits 2 m ++ "-" ++ digits 2 d ++ "T"
   ++ digits 2 (w / msPerHour) ++ ":" ++ digits 2 (w / msPerMinute mod 60)
   ++ ":" ++ digits 2 (w / msPerSecond mod 60) ++ "."
   ++ digits 3 (w mod 1000) ++ "Z")%string.

(** [Date.parse] on the format of [toISOString],
    YYYY-MM-DDTHH:mm:ss.sssZ; any other text is NaN here. *)
Definition parse_iso (s : string) : option Z :=
  match read_digits 4 0 s with
  | Some (y, s1) =>
  match expect "-" s1 with Some s2 =>
  match read_digits 2 0 s2 with Some (m, s3) =>
  match expect "-" s3 with Some s4 =>
  match read_digits 2 0 s4 with Some (d, s5) =>
  match expect "T" s5 with Some s6 =>
  match read_digits 2 0 s6 with Some (hh, s7) =>
  match expect ":" s7 with Some s8 =>
  match read_digits 2 0 s8 with Some (mm, s9) =>
  match expect ":" s9 with Some s10 =>
  match read_digits 2 0 s10 with Some (ss, s11) =>
  match expect "." s11 with Some s12 =>
  match read_digits 3 0 s12 with Some (ms, s13) =>
  match s13 with
  | "Z"%string =>
      if (1 <=? m) && (m <=? 12) && (1 <=? d) && (d <=? days_in_month y m)
         && (hh <=? 23) && (mm <=? 59) && (ss <=? 59)
      then Some (MakeDate (days_from_civil y m d) (MakeTime hh mm ss ms))
      else None
  | _ => None
  end
  | None => None end
  | None => None end
  | None => None end
  | None => None end
  | None => None end
  | None => None end
  | None => None end
  | None => None end
  | None => None end
  | None => None end
  | None => None end
  | None => None end
  | None => None
  end.

(** The day number of the last Sunday of month [m] (of 31 days) of [y]. *)
Definition last_sunday (y m : Z) : Z :=
  let last := days_from_civil y m 31 in
  last - (last + 4) mod 7.

(** Summer time runs from 01:00 UTC on the last Sunday of March to
    01:00 UTC on the last Sunday of October. *)
Definition summer_time (t : Z) : bool :=
  let y := YearFromTime t in
  (MakeDate (last_sunday y 3) msPerHour <=? t)
  && (t <? MakeDate (last_sunday y 10) msPerHour).

Definition local_time (t : Z) : Z :=
  t + (if summer_time t then 3 else 2) * msPerHour.

(** The Swedish locale writes a date as YYYY-MM-DD. *)
Definition local_date (t : Z) : string :=
  let '(y, m, d) := civil_from_days (Day (local_time t)) in
  (digits 4 y ++ "-" ++ digits 2 m ++ "-" ++ digits 2 d)%string.

Definition weekday_name (w : Z) : string :=
  match w with
  | 0 => "sunnuntai"
  | 1 => "maanantai"
  | 2 => "tiistai"
  | 3 => "keskiviikko"
  | 4 => "torstai"
  | 5 => "perjantai"
  | _ => "lauantai"
  end.

Definition local_weekday (t : Z) : string :=
  weekday_name (WeekDay (local_time t)).

(** Prices as exact rationals; [toFixed] rounds half away from zero. *)
Definition to_fixed (q : Q) (fractionDigits : nat) : string :=
  let scale := 10 ^ Z.of_nat fractionDigits in
  let n := Qfloor (Qabs q * inject_Z scale + (1 # 2)) in
  ((if Qlt_le_dec q 0 then "-" else "")
   ++ decimal 30 (n / scale)
   ++ match fractionDigits with
      | O => ""
      | _ => "." ++ digits fractionDigits (n mod scale)
      end)%string.

Definition runtime : Runtime Q := {|
  times_1_24 := fun q => (q * 1.24)%Q;
  toFixed := to_fixed;
  Date_parse := parse_iso;
  localDate := local_date;
  localWeekday := local_weekday
|}.

End Helsinki.

(** ** Sample data: the turn of the year 2022/2023 *)

Module Sample.

#[local] Existing Instance Helsinki.runtime.

(** The 24 hours of a local winter day that starts at [midnight]; the
    price of hour [h] is [h / 2]. *)
Definition day (name : string) (midnight : Z) : DayPrice Q :=
  {| date := name;
     hourPrices :=
       map (fun h =>
              {| startTime :=
                   Helsinki.toISOString (midnight + Z.of_nat h * msPerHour);
                 price := Z.of_nat h # 2 |})
           (seq 0 24) |}.

(** 2022-12-29T22:00:00Z is the local midnight that starts 2022-12-30. *)
Definition dec30 : DayPrice Q := day "2022-12-30" 1672351200000.
Definition dec31 : DayPrice Q := day "2022-12-31" 1672437600000.
Definition jan01 : DayPrice Q := day "2023-01-01" 1672524000000.

Definition stored (d : DayPrice Q)
  : PromiseSettledResult (GetObjectOutput Q) :=
  fulfilled {| Body := Some (json d) |}.

(** The store before the prices of 2023-01-01 are published. *)
Definition store_morning (key : string)
  : PromiseSettledResult (GetObjectOutput Q) :=
  if (key =? "2022-12-30.json")%string then stored dec30
  else if (key =? "2022-12-31.json")%string then stored dec31
  else rejected.

(** The store once they are. *)
Definition store_afternoon (key : string)
  : PromiseSettledResult (GetObjectOutput Q) :=
  if (key =? "2023-01-01.json")%string then stored jan01
  else store_morning key.

(** A store that answers no request. *)
Definition store_down (key : string)
  : PromiseSettledResult (GetObjectOutput Q) := rejected.

(** 2022-12-31T11:00:00Z and 2022-12-31T13:00:00Z. *)
Definition before_noon : Z := 1672484400000.
Definition after_noon : Z := 1672491600000.

(** The series of the morning: 2022-12-30 and 2022-12-31, 48 hours. *)
Definition series : list (Point.t Q) := dataset [dec30; dec31].

End Sample.

(** ** The clock face, the colours and the rest of the page *)

(** [`${value}`] on a non-negative integer up to 2^53: its decimal
    digits.  (Above, a number no longer holds every integer, and from
    1e21 on it is printed with an exponent.) *)
Definition Number_toString (value : nat) : string :=
NilEmpty.string_of_uint (Nat.to_uint value).

(** Reading decimal digits back, leading zeros allowed. *)
Definition parseDecimal (s : string) : option nat :=
option_map Nat.of_uint (NilEmpty.uint_of_string s).

Fixpoint string_repeat (s : string) (count : nat) : string :=
match count with
| O => ""
| S count' => (s ++ string_repeat s count')%string
end.

(** [s.padStart(targetLength, padString)]: [padString] is repeated and cut
    to the missing length; nothing is added when it is empty. *)
Definition padStart (s : string) (targetLength : nat) (padString : string)
  : string :=
let fillLen := (targetLength - String.length s)%nat in
if (padString =? "")%string then s
else (substring 0 fillLen (string_repeat padString fillLen) ++ s)%string.

(** [leftPad], on what [getHours] and [getMinutes] give for a valid date. *)
Definition leftPad (value : nat) (pad : nat) : string :=
padStart (Number_toString value) pad "0".

(** [formatHHMM] and [formatHH], from the hours and the minutes of the
    date in the zone of the browser. *)
Definition formatHHMM (hours minutes : nat) : string :=
(leftPad hours 2 ++ "." ++ leftPad minutes 2)%string.

Definition formatHH (hours : nat) : string := leftPad hours 2.

(** The label of a tick of the time axis: even hours only. *)
Definition tickLabel (hours : nat) : string :=
if (hours mod 2 =? 0)%nat then formatHH hours else "".

Definition colors : list (Q * string) :=
[ (5.0%Q, "#087E8B"); (20.0%Q, "#FFE548"); (40.0%Q, "#FFB20F");
  (60.0%Q, "#FF7F27") ].

Section Colors.
Context {number : Type}.

(** [value <= upperLimit] on a price; false when the price is NaN. *)
Variable number_le : number -> Q -> bool.

Definition colorDataPoint (value : number) : string :=
let color :=
  match find (fun c => number_le value (fst c)) colors with
  | Some c => snd c
  | None => "#FF4B3E"
  end in
color.

(** [dataset.map(({ y }) => colorDataPoint(y))]. *)
Definition backgroundColor (dataset : list (Point.t number)) : list string :=
map (fun p => colorDataPoint (Point.y p)) dataset.

End Colors.

(** A JavaScript object with string keys, in the order of insertion. *)
Definition JSObject (V : Type) : Type := list (string * V).

(** [o[key] = v]: replaces the value of an existing key in place, else
    adds the key at the end. *)
Fixpoint obj_set {V : Type} (key : string) (v : V) (o : JSObject V)
  : JSObject V :=
match o with
| [] => [(key, v)]
| (k, w) :: o' =>
    if (k =? key)%string then (k, v) :: o' else (k, w) :: obj_set key v o'
end.

(** [o[key]], [None] for undefined. *)
Fixpoint obj_get {V : Type} (key : string) (o : JSObject V) : option V :=
match o with
| [] => None
| (k, w) :: o' => if (k =? key)%string then Some w else obj_get key o'
end.

Definition obj_keys {V : Type} (o : JSObject V) : list string := map fst o.

Section Page.
Context {number : Type} `{RT : Runtime number}.

Definition dayChangeKey (i : nat) : string :=
("dayChange" ++ Number_toString i)%string.

(** The callback of the [forEach] of [collectAnnotations]. *)
Definition addDayChange (annotations : JSObject AnnotationOptions)
           (ai : AnnotationOptions * nat) : JSObject AnnotationOptions :=
obj_set (dayChangeKey (snd ai)) (fst ai) annotations.

Definition collectAnnotations (darkMode : bool) (now : Z)
           (data : list (Point.t number))
  : Completion (JSObject AnnotationOptions) :=
let annotations : JSObject AnnotationOptions := [] in
let currentTimeAnnotation := annotateCurrentTime darkMode now data in
dayChanges <- annotateDayChanges darkMode data ;;
let annotations :=
  match currentTimeAnnotation with
  | Some a => obj_set "currentTime" a annotations
  | None => annotations
  end in
Return (fold_left addDayChange
                  (combine dayChanges (seq 0 (List.length dayChanges)))
                  annotations).

(** [data.datasets[0].data[currentIndex].y] throws a TypeError when
    [currentIndex] is not an index of the data. *)
Definition getCurrentPrice (now : Z) (data : list (Point.t number))
  : Completion string :=
let currentIndex := findCurrentTimeIndex now data in
if currentIndex =? -1 then Return "-"
else
  match nth_error data (Z.to_nat currentIndex) with
  | Some p => Return (toFixed (Point.y p) 2)
  | None => Throw TypeError
  end.

(** [toISOString] of a valid date is taken from the host. *)
Variable toISOString : Z -> string.

(** [x.slice(0, 10) === date.toISOString().slice(0, 10)]. *)
Definition sameISODay (date : Z) (p : Point.t number) : bool :=
(substring 0 10 (Point.x p) =? substring 0 10 (toISOString date))%string.

Definition dateIncludedInData (data : list (Point.t number)) (date : Z)
  : bool :=
(2 <? List.length (filter (sameISODay date) data))%nat.

(** The check that the page runs every 15 minutes: between 14 and 16
    o'clock, reload when the day after [time] is not in the data. *)
Definition reloadWanted (hours : nat) (time : Z)
           (data : list (Point.t number)) : bool :=
if (14 <=? hours)%nat && (hours <? 16)%nat then
  let tomorrow := time + 24 * 60 * 60 * 1000 in
  negb (dateIncludedInData data tomorrow)
else false.

End Page.

(** ** More sample data *)

Module SamplePage.

(** The store of the afternoon with a body for 2022-12-30 that is not
    JSON. *)
Definition store_bad_oldest (key : string)
  : PromiseSettledResult (GetObjectOutput Q) :=
if (key =? "2022-12-30.json")%string
then fulfilled {| Body := Some malformed |}
else Sample.store_afternoon key.

(** The store of the morning with a day 2022-12-31 that has no hour whose
    start time can be read. *)
Definition unreadable : DayPrice Q :=
{| date := "2022-12-31";
   hourPrices := [ {| startTime := "soon"; price := 7 # 1 |} ] |}.

Definition store_unreadable (key : string)
  : PromiseSettledResult (GetObjectOutput Q) :=
if (key =? "2022-12-31.json")%string then Sample.stored unreadable
else rejected.

(** The first [count] hours from [midnight] on, as a day called [name]. *)
Definition hours_from (name : string) (midnight : Z) (count : nat)
  : DayPrice Q :=
{| date := name;
   hourPrices :=
     map (fun h =>
            {| startTime :=
                 Helsinki.toISOString (midnight + Z.of_nat h * msPerHour);
               price := Z.of_nat h # 2 |})
         (seq 0 count) |}.




(** The end of summer time: 2023-10-28 has 24 hours from
    2023-10-27T21:00:00Z, 2023-10-29 has 25 hours from
    2023-10-28T21:00:00Z.  The instant is 2023-10-28T21:30:00Z, half past
    midnight of 2023-10-29 in Helsinki. *)
Definition oct28 : DayPrice Q := hours_from "2023-10-28" 1698440400000 24.
Definition oct29 : DayPrice Q := hours_from "2023-10-29" 1698526800000 25.

Definition store_autumn (key : string)
  : PromiseSettledResult (GetObjectOutput Q) :=
if (key =? "2023-10-28.json")%string then Sample.stored oct28
else if (key =? "2023-10-29.json")%string then Sample.stored oct29
else rejected.

Definition long_day_night : Z := 1698528600000.

(** Every hour of the day has the local date the day is called by. *)
Definition ownDate (d : DayPrice Q) : bool :=
forallb (fun h =>
           (@finnishDate Q Helsinki.runtime
                         (@Date_new Q Helsinki.runtime (startTime h))
            =? date d)%string)
        (hourPrices d).

(** Prices as exact rationals: [value <= upperLimit]. *)
Definition Q_le (value : Q) (upperLimit : Q) : bool := Qle_bool value upperLimit.

End SamplePage.

(** ** The vocabulary of the properties *)

Section Vocabulary.
Context {number : Type} `{RT : Runtime number}.

(** [now] lies in the hour [startTime, startTime + 1h) of the entry. *)
Definition holdsNow (now : Z) (p : Point.t number) : Prop :=
  exists s, Date_parse (Point.x p) = Some s /\ s <= now < s + msPerHour.

(** No instant lies in the hours of two entries of the series. *)
Definition nonOverlapping (data : list (Point.t number)) : Prop :=
  forall i j p q t,
    nth_error data i = Some p -> nth_error data j = Some q ->
    holdsNow t p -> holdsNow t q -> i = j.

(** The entries start on consecutive hours, the first one at [t0]. *)
Definition hourly (t0 : Z) (data : list (Point.t number)) : Prop :=
  forall i p, nth_error data i = Some p ->
              Date_parse (Point.x p) = Some (t0 + Z.of_nat i * msPerHour).

Definition hourlyb (t0 : Z) (data : list (Point.t number)) : bool :=
  forallb (fun pi : Point.t number * nat =>
             match Date_parse (Point.x (fst pi)) with
             | Some s => s =? t0 + Z.of_nat (snd pi) * msPerHour
             | None => false
             end)
          (combine data (seq 0 (List.length data))).

(** The hour that starts at [a] starts before the one that starts at [b]. *)
Definition startsBefore (a b : string) : Prop :=
  exists s t, Date_parse a = Some s /\ Date_parse b = Some t /\ s < t.

Definition startsBeforeb (a b : string) : bool :=
  num_lt (Date_parse a) (Date_parse b).

(** Strictly increasing by start time. *)
Definition increasing (xs : list string) : Prop :=
  forall i j a b,
    (i < j)%nat -> nth_error xs i = Some a -> nth_error xs j = Some b ->
    startsBefore a b.

Fixpoint increasingb (xs : list string) : bool :=
  match xs with
  | [] => true
  | a :: xs' =>
      match xs' with
      | [] => true
      | b :: _ => startsBeforeb a b && increasingb xs'
      end
  end.

Definition startTimes (d : DayPrice number) : list string :=
  map startTime (hourPrices d).

(** The days come in chronological order: every hour of an earlier day
    starts before every hour of a later one. *)
Definition chronological (days : list (DayPrice number)) : Prop :=
  forall i j d e a b,
    (i < j)%nat -> nth_error days i = Some d -> nth_error days j = Some e ->
    In a (startTimes d) -> In b (startTimes e) -> startsBefore a b.

Fixpoint chronologicalb (days : list (DayPrice number)) : bool :=
  match days with
  | [] => true
  | d :: days' =>
      forallb (fun e =>
                 forallb (fun a => forallb (startsBeforeb a) (startTimes e))
                         (startTimes d))
              days'
      && chronologicalb days'
  end.

(** The local calendar date of an entry. *)
Definition localDateOf (p : Point.t number) : string :=
  finnishDate (Date_new (Point.x p)).

Definition localDates (data : list (Point.t number)) : list string :=
  map localDateOf data.


(** The weekday label of the day that starts at index [i]. *)
Definition weekdayLabelAt (darkMode : bool) (data : list (Point.t number))
           (i : nat) (a : AnnotationOptions) : Prop :=
  exists p,
    nth_error data i = Some p
    /\ a = Label (num_of_index i + 1) "start" (maxPrice - 1)
                 (finnishWeekday (Date_new (Point.x p)))
                 (dayChangeColor darkMode).

End Vocabulary.


(** The [reduce] of [annotateDayChanges] as a scan of the dates: [last]
    is the date seen before, [k] the index of the first of [dates]. *)
Fixpoint changes (last : string) (k : nat) (dates : list string) : list nat :=
  match dates with
  | [] => []
  | d :: dates' =>
      (if negb (last =? d)%string && truthy last then [k] else [])
        ++ changes d (S k) dates'
  end.

Definition isLabel (a : AnnotationOptions) : Prop :=
  match a with
  | Label _ _ _ _ _ => True
  | _ => False
  end.

(** The UTC date of the instant [t] is strictly after that of [now]. *)
Definition dateAfter (t now : Z) : Prop := Day now < Day t.

(** The body of a response is there and is the JSON of a day. *)
Definition parses {number : Type} (v : GetObjectOutput number) : Prop :=
exists d, Body v = Some (json d).

Definition isLine (a : AnnotationOptions) : Prop :=
match a with
| Line _ _ _ _ _ => True
| _ => False
end.

(** * Properties *)

(** ** [findIndex] *)

Section FindIndex.
Context {A : Type} (p : A -> bool).

Lemma findIndex_from_none (arr : list A) (i : Z) :
  (forall a, In a arr -> p a = false) -> findIndex_from p i arr = -1.
Proof.
  revert i; induction arr as [|a arr IH]; intros i Hall; simpl.
  - reflexivity.
  - rewrite (Hall a (or_introl eq_refl)).
    apply IH; intros b Hb; apply Hall; right; exact Hb.
Qed.

Lemma findIndex_from_first (arr : list A) (i : Z) (k : nat) (a : A) :
  nth_error arr k = Some a -> p a = true ->
  (forall j b, (j < k)%nat -> nth_error arr j = Some b -> p b = false) ->
  findIndex_from p i arr = i + Z.of_nat k.
Proof.
  revert i k; induction arr as [|c arr IH]; intros i k Hk Ha Hbefore.
  - destruct k; discriminate.
  - destruct k as [|k]; simpl in *.
    + injection Hk as ->. rewrite Ha. lia.
    + rewrite (Hbefore 0%nat c) by (simpl; trivial; lia).
      rewrite (IH (i + 1) k Hk Ha).
      * lia.
      * intros j b Hj Hb. apply (Hbefore (S j) b); [lia | exact Hb].
Qed.

(** What [findIndex] answers: -1 when no element passes, else the
    first index whose element passes. *)
Lemma findIndex_from_inv (arr : list A) (i : Z) :
  0 <= i ->
  (findIndex_from p i arr = -1 /\ forall a, In a arr -> p a = false)
  \/ (exists k a,
        findIndex_from p i arr = i + Z.of_nat k
        /\ nth_error arr k = Some a /\ p a = true
        /\ forall j b, (j < k)%nat -> nth_error arr j = Some b -> p b = false).
Proof.
  revert i; induction arr as [|c arr IH]; intros i Hi; simpl.
  - left; split; [reflexivity | intros a []].
  - destruct (p c) eqn:Hc.
    + right; exists 0%nat, c.
      split; [simpl; lia | split; [reflexivity | split; [exact Hc |]]].
      intros j b Hj; lia.
    + destruct (IH (i + 1)) as [[Hnone Hall] | (k & a & Hres & Hk & Ha & Hbefore)];
        [lia | |].
      * left; split; [exact Hnone |].
        intros a [<- | Ha]; [exact Hc | exact (Hall a Ha)].
      * right; exists (S k), a.
        split; [lia | split; [exact Hk | split; [exact Ha |]]].
        intros [|j] b Hj Hb; simpl in Hb.
        -- injection Hb as <-; exact Hc.
        -- apply (Hbefore j b); [lia | exact Hb].
Qed.

End FindIndex.

(** ** The current hour *)

Section CurrentHour.
Context {number : Type} `{RT : Runtime number}.

Lemma isCurrent_holdsNow (now : Z) (p : Point.t number) :
  isCurrent now p = true <-> holdsNow now p.
Proof.
  unfold isCurrent, holdsNow, Date_new, getTime, num_add, msPerHour.
  destruct (Date_parse (Point.x p)) as [s|]; simpl.
  - rewrite andb_true_iff, Z.leb_le, Z.ltb_lt. split.
    + intros [H1 H2]; exists s; split; [reflexivity | lia].
    + intros (s' & Hs & H1); injection Hs as <-; lia.
  - split; [discriminate | intros (s & Hs & _); discriminate].
Qed.

Lemma isCurrent_false (now : Z) (p : Point.t number) :
  isCurrent now p = false <-> ~ holdsNow now p.
Proof.
  rewrite <- isCurrent_holdsNow. destruct (isCurrent now p); split; intros H;
    try discriminate; try reflexivity; try (intros H'; discriminate).
  exfalso; apply H; reflexivity.
Qed.

Lemma findCurrentTimeIndex_inv (now : Z) (data : list (Point.t number)) :
  (findCurrentTimeIndex now data = -1
   /\ forall i p, nth_error data i = Some p -> ~ holdsNow now p)
  \/ (exists k p,
        findCurrentTimeIndex now data = Z.of_nat k
        /\ nth_error data k = Some p /\ holdsNow now p
        /\ forall j q, (j < k)%nat -> nth_error data j = Some q ->
                       ~ holdsNow now q).
Proof.
  unfold findCurrentTimeIndex, findIndex.
  destruct (findIndex_from_inv (isCurrent now) data 0)
    as [[Hnone Hall] | (k & a & Hres & Hk & Ha & Hbefore)]; [lia | |].
  - left; split; [exact Hnone |].
    intros i p Hi. apply isCurrent_false, Hall. eapply nth_error_In; eauto.
  - right; exists k, a.
    split; [lia | split; [exact Hk | split]].
    + apply isCurrent_holdsNow; exact Ha.
    + intros j q Hj Hq. apply isCurrent_false. eapply Hbefore; eauto.
Qed.

(** On hours that do not overlap, the locator answers the index of the
    entry whose hour holds [now]. *)
Lemma findCurrentTimeIndex_at (now : Z) (data : list (Point.t number))
      (i : nat) (p : Point.t number) :
  nonOverlapping data ->
  nth_error data i = Some p -> holdsNow now p ->
  findCurrentTimeIndex now data = Z.of_nat i.
Proof.
  intros Hdisjoint Hi Hp.
  destruct (findCurrentTimeIndex_inv now data)
    as [[_ Hall] | (k & q & Hres & Hk & Hq & _)].
  - destruct (Hall i p Hi Hp).
  - rewrite (Hdisjoint i k p q now Hi Hk Hp Hq). exact Hres.
Qed.

End CurrentHour.

(** ** The window of retained days *)

Section Slices.
Context {A : Type}.

Lemma slice_last_length (k : nat) (arr : list A) :
  List.length (slice_last k arr) = Nat.min k (List.length arr).
Proof. unfold slice_last. rewrite length_skipn. lia. Qed.

Lemma slice_last_length_le (k : nat) (arr : list A) :
  (List.length (slice_last k arr) <= k)%nat.
Proof. rewrite slice_last_length. apply Nat.le_min_l. Qed.

Lemma slice_last_suffix (k : nat) (arr : list A) :
  arr = firstn (List.length arr - k) arr ++ slice_last k arr.
Proof. unfold slice_last. symmetry. apply firstn_skipn. Qed.

Lemma slice_last_snoc (init : list A) (a : A) :
  slice_last 1 (init ++ [a]) = [a].
Proof.
  unfold slice_last. rewrite length_app; simpl.
  replace (List.length init + 1 - 1)%nat with (List.length init) by lia.
  rewrite skipn_app, skipn_all, Nat.sub_diag. reflexivity.
Qed.

Lemma slice_last_nil (arr : list A) : slice_last 1 arr = [] -> arr = [].
Proof.
  intros H. pose proof (slice_last_length 1 arr) as Hlen.
  rewrite H in Hlen.
  destruct arr; [reflexivity | simpl List.length in Hlen; lia].
Qed.

End Slices.

Section ServerFacts.
Context {number : Type} `{RT : Runtime number}.
Variable getObject : string -> PromiseSettledResult (GetObjectOutput number).

Lemma mapM_length {A B : Type} (f : A -> Completion B) (l : list A)
      (bs : list B) :
  mapM f l = Return bs -> List.length bs = List.length l.
Proof.
  revert bs; induction l as [|a l IH]; intros bs; simpl.
  - intros [= <-]; reflexivity.
  - destruct (f a) as [b|e]; simpl; [|discriminate].
    destruct (mapM f l) as [bs'|e]; simpl; [|discriminate].
    intros [= <-]; simpl. f_equal. apply IH; reflexivity.
Qed.

(** A cycle whose bodies parse and whose dataset has a last entry
    returns that dataset and the validity computed from the entry. *)
Lemma getStaticProps_returns (now : Z) (days : list (DayPrice number))
      (init : list (Point.t number)) (last : Point.t number) :
  results getObject now = Return days ->
  dataset days = init ++ [last] ->
  getStaticProps getObject now
  = Return {| data := dataset days;
              revalidate :=
                dataValidForSeconds now (Date_new (Point.x last)) |}.
Proof.
  intros Hres Hds. unfold getStaticProps. rewrite Hres; simpl.
  rewrite Hds at 1 2. rewrite slice_last_snoc. rewrite Hds. reflexivity.
Qed.

(** A cycle that returns has parsed its bodies and returns their points. *)
Lemma getStaticProps_inv (now : Z) (props : Props number) :
  getStaticProps getObject now = Return props ->
  exists days init last,
    results getObject now = Return days
    /\ dataset days = init ++ [last]
    /\ data props = dataset days
    /\ revalidate props = dataValidForSeconds now (Date_new (Point.x last)).
Proof.
  unfold getStaticProps. destruct (results getObject now) as [days|e] eqn:Hres;
    simpl; [|discriminate].
  destruct (slice_last 1 (dataset days)) as [|last rest] eqn:Hlast;
    [discriminate|].
  intros [= <-]. exists days.
  pose proof (slice_last_suffix 1 (dataset days)) as Hsuf.
  pose proof (slice_last_length_le 1 (dataset days)) as Hlen.
  rewrite Hlast in Hsuf, Hlen.
  destruct rest; [|simpl in Hlen; lia].
  eexists _, last. repeat split; trivial. exact Hsuf.
Qed.

(** An empty dataset aborts the cycle. *)
Lemma getStaticProps_empty (now : Z) (days : list (DayPrice number)) :
  results getObject now = Return days -> dataset days = [] ->
  getStaticProps getObject now = Throw TypeError.
Proof.
  intros Hres Hds. unfold getStaticProps. rewrite Hres; simpl.
  rewrite Hds. reflexivity.
Qed.

End ServerFacts.

Lemma nodup_length_le {A : Type} (dec : forall a b : A, {a = b} + {a <> b})
      (l : list A) :
  (List.length (nodup dec l) <= List.length l)%nat.
Proof.
  induction l as [|a l IH]; simpl; [lia |].
  destruct (in_dec dec a l); simpl; lia.
Qed.

(** C8. Every cycle issues three requests and keeps the bodies of the last
    two fulfilled ones, in request order (yesterday, today, tomorrow): at
    most two are kept, they are a suffix of the fulfilled ones, the oldest
    is dropped when all three are fulfilled, and a series that is returned
    is made of the hours of at most two days, with at most two distinct
    dates. *)
Theorem retained_last_two {number : Type} `{RT : Runtime number}
        (getObject : string -> PromiseSettledResult (GetObjectOutput number))
        (now : Z) :
  List.length (requests getObject now) = 3%nat
  /\ (List.length (retained getObject now) <= 2)%nat
  /\ (exists older,
        filter_isFulfilled (requests getObject now)
        = older ++ retained getObject now)
  /\ (forall v1 v2 v3,
        requests getObject now = [fulfilled v1; fulfilled v2; fulfilled v3] ->
        retained getObject now = [v2; v3])
  /\ (forall props,
        getStaticProps getObject now = Return props ->
        exists days,
          mapM JSON_parse_Body (retained getObject now) = Return days
          /\ (List.length days <= 2)%nat
          /\ data props = flat_map (fun d => map toPoint (hourPrices d)) days
          /\ (List.length (nodup string_dec (map date days)) <= 2)%nat).
Proof.
  split; [reflexivity |].
  split; [apply slice_last_length_le |].
  split; [eexists; apply slice_last_suffix |].
  split.
  - intros v1 v2 v3 Hreq. unfold retained. rewrite Hreq. reflexivity.
  - intros props Hprops.
    destruct (getStaticProps_inv getObject now props Hprops)
      as (days & init & last & Hres & _ & Hdata & _).
    exists days. split; [exact Hres |].
    assert (Hlen : (List.length days <= 2)%nat).
    { rewrite (mapM_length _ _ _ Hres). apply slice_last_length_le. }
    split; [exact Hlen |]. split; [exact Hdata |].
    etransitivity; [apply nodup_length_le |]. rewrite length_map. exact Hlen.
Qed.

(** C2, as the page has it. When none of the three requests is fulfilled
    the cycle produces no series: it ends in a TypeError, thrown where the
    last entry of the empty dataset is read. *)
Theorem no_fetch_throws {number : Type} `{RT : Runtime number}
        (getObject : string -> PromiseSettledResult (GetObjectOutput number))
        (now : Z) :
  (forall r, In r (requests getObject now) -> r = rejected) ->
  getStaticProps getObject now = Throw TypeError.
Proof.
  intros Hall. apply (getStaticProps_empty getObject now []); [|reflexivity].
  unfold results, retained.
  assert (Hnone : filter_isFulfilled (requests getObject now) = []).
  { induction (requests getObject now) as [|r l IH]; [reflexivity |].
    simpl. rewrite (Hall r (or_introl eq_refl)).
    apply IH. intros r' Hr'. apply Hall. right; exact Hr'. }
  rewrite Hnone. reflexivity.
Qed.

Lemma no_fetch_throws_witness :
  (forall r,
      In r (requests (RT := Helsinki.runtime) Sample.store_down
                     Sample.after_noon) ->
      r = rejected)
  /\ getStaticProps (RT := Helsinki.runtime) Sample.store_down
                    Sample.after_noon
     = Throw TypeError.
Proof.
  assert (H : forall r,
             In r (requests (RT := Helsinki.runtime) Sample.store_down
                            Sample.after_noon) ->
             r = rejected).
  { intros r Hr. apply in_map_iff in Hr.
    destruct Hr as (key & Hkey & _). symmetry; exact Hkey. }
  split; [exact H |].
  exact (no_fetch_throws Sample.store_down Sample.after_noon H).
Defined.

(** C2 fails as stated: with no request fulfilled the cycle does not end
    in a value of any kind, it throws. *)
Lemma no_fetch_is_not_a_result :
  getStaticProps (RT := Helsinki.runtime) Sample.store_down Sample.after_noon
  = Throw TypeError
  /\ ~ (exists result : Props Q,
          getStaticProps (RT := Helsinki.runtime) Sample.store_down
                         Sample.after_noon
          = Return result).
Proof.
  assert (H : getStaticProps (RT := Helsinki.runtime) Sample.store_down
                             Sample.after_noon
              = Throw TypeError) by (vm_compute; reflexivity).
  split; [exact H |]. intros [result H']. rewrite H in H'. discriminate H'.
Qed.

(** ** The validity of the page *)

Lemma Day_setUTCHours_noon (now : Z) :
  setUTCHours now 12 0 0 0 = Day now * msPerDay + 12 * msPerHour.
Proof. unfold setUTCHours, MakeDate, MakeTime, msPerHour. lia. Qed.

(** The fields of a date depend on its day only: a last entry on the day
    of [now] leaves [nextUpdate] at noon of that day. *)
Lemma nextUpdate_same_day (now s : Z) :
  Day s = Day now -> nextUpdate now (Some s) = setUTCHours now 12 0 0 0.
Proof.
  intros Hday. unfold nextUpdate, getUTCDate, getUTCMonth; simpl.
  unfold DateFromTime, MonthFromTime. rewrite Hday.
  rewrite !Z.ltb_irrefl. reflexivity.
Qed.




(** C6, as the page has it. Between two instants that have the same
    [nextUpdate] the validity never grows as [now] advances; it shrinks
    when the two are a second or more apart and the later one is a minute
    or more before [nextUpdate]. *)
Theorem dataValidForSeconds_decreases (lastStartTime : Date) (now1 now2 : Z) :
  now1 < now2 ->
  nextUpdate now1 lastStartTime = nextUpdate now2 lastStartTime ->
  dataValidForSeconds now2 lastStartTime <= dataValidForSeconds now1 lastStartTime
  /\ (now1 + 1000 <= now2 ->
      now2 + 60000 <= nextUpdate now2 lastStartTime ->
      dataValidForSeconds now2 lastStartTime
      < dataValidForSeconds now1 lastStartTime).
Proof.
  intros Hlt Hsame. unfold dataValidForSeconds. rewrite Hsame.
  set (N := nextUpdate now2 lastStartTime). split.
  - assert ((N - now2) / 1000 <= (N - now1) / 1000)
      by (apply Z.div_le_mono; lia).
    lia.
  - intros Hsec Hmin.
    assert (60 <= (N - now2) / 1000)
      by (apply Z.div_le_lower_bound; lia).
    assert ((N - now2) / 1000 + 1 <= (N - now1) / 1000).
    { replace ((N - now2) / 1000 + 1) with ((N - now2 + 1 * 1000) / 1000)
        by (rewrite Z.div_add by lia; reflexivity).
      apply Z.div_le_mono; lia. }
    lia.
Qed.

Lemma dataValidForSeconds_decreases_witness :
  dataValidForSeconds Sample.after_noon (Some 1672520400000)
  <= dataValidForSeconds Sample.before_noon (Some 1672520400000).
Proof.
  refine (proj1 (dataValidForSeconds_decreases (Some 1672520400000)
                   Sample.before_noon Sample.after_noon _ _));
    vm_compute; reflexivity.
Defined.

(** C6 fails as stated: one millisecond apart, or inside the last minute
    before [nextUpdate], two instants that precede the same [nextUpdate]
    get the same validity. *)
Lemma dataValidForSeconds_plateau :
  let lastStartTime : Date := Some 1672520400000 in
  (let now1 := 1672484400001 in
   let now2 := 1672484400002 in
   now1 < now2 /\ now2 < nextUpdate now2 lastStartTime
   /\ nextUpdate now1 lastStartTime = nextUpdate now2 lastStartTime
   /\ ~ dataValidForSeconds now2 lastStartTime
        < dataValidForSeconds now1 lastStartTime)
  /\ (let now1 := 1672487970000 in
      let now2 := 1672487980000 in
      now1 < now2 /\ now2 < nextUpdate now2 lastStartTime
      /\ nextUpdate now1 lastStartTime = nextUpdate now2 lastStartTime
      /\ dataValidForSeconds now1 lastStartTime = 60
      /\ dataValidForSeconds now2 lastStartTime = 60).
Proof.
  vm_compute. repeat split; try reflexivity; discriminate.
Qed.

(** C1 fails on New Year's Eve. At 13:00 UTC on 2022-12-31 the series
    ends at 2023-01-01T21:00:00Z, a date strictly after that of [now], yet
    [nextUpdate] stays at noon of 2022-12-31, already past, and the page is
    valid for the floor of 60 seconds. The comparison also fails the other
    way: at 11:00 UTC on 2023-03-01 a series that ends on 2023-02-28, a
    date before that of [now], moves [nextUpdate] to noon of 2023-03-02. *)
Theorem nextUpdate_misses_new_year :
  (let now := Sample.after_noon in
   let lastStartTime := 1672606800000 in
   dateAfter lastStartTime now
   /\ nextUpdate now (Some lastStartTime) = setUTCHours now 12 0 0 0
   /\ nextUpdate now (Some lastStartTime) < now
   /\ exists props,
       getStaticProps (RT := Helsinki.runtime) Sample.store_afternoon now
       = Return props
       /\ map Point.x (slice_last 1 (data props))
          = ["2023-01-01T21:00:00.000Z"]
       /\ revalidate props = 60)
  /\ (let now := 1677668400000 in
      let lastStartTime := 1677618000000 in
      ~ dateAfter lastStartTime now
      /\ nextUpdate now (Some lastStartTime)
         = setUTCHours now 12 0 0 0 + msPerDay).
Proof.
  split.
  - cbv zeta. split; [vm_compute; reflexivity |].
    split; [vm_compute; reflexivity |].
    split; [vm_compute; reflexivity |].
    eexists. split; [vm_compute; reflexivity |].
    split; vm_compute; reflexivity.
  - cbv zeta. split; [vm_compute; discriminate | vm_compute; reflexivity].
Qed.

(** ** The order of the series *)

Section Order.
Context {number : Type} `{RT : Runtime number}.

Lemma startsBefore_trans (a b c : string) :
  startsBefore a b -> startsBefore b c -> startsBefore a c.
Proof.
  intros (s & t & Hs & Ht & Hst) (t' & u & Ht' & Hu & Htu).
  rewrite Ht in Ht'; injection Ht' as <-.
  exists s, u. repeat split; trivial; lia.
Qed.

Lemma startsBeforeb_true (a b : string) :
  startsBeforeb a b = true <-> startsBefore a b.
Proof.
  unfold startsBeforeb, startsBefore, num_lt.
  destruct (Date_parse a) as [s|], (Date_parse b) as [t|]; split;
    try discriminate;
    try (intros (s' & t' & Hs & Ht & _); discriminate).
  - intros H; apply Z.ltb_lt in H. exists s, t. repeat split; trivial.
  - intros (s' & t' & [= <-] & [= <-] & H). apply Z.ltb_lt; exact H.
Qed.

Lemma increasing_nil : increasing [].
Proof. intros i j a b _ Hi; destruct i; discriminate. Qed.

Lemma increasing_cons (a : string) (xs : list string) :
  increasing (a :: xs)
  <-> (forall b, In b xs -> startsBefore a b) /\ increasing xs.
Proof.
  split.
  - intros Hinc; split.
    + intros b Hb. destruct (In_nth_error _ _ Hb) as [j Hj].
      apply (Hinc 0%nat (S j) a b); [lia | reflexivity | exact Hj].
    + intros i j b c Hij Hi Hj.
      apply (Hinc (S i) (S j) b c); [lia | exact Hi | exact Hj].
  - intros [Hhead Htail] i j b c Hij Hi Hj.
    destruct j as [|j]; [lia |]. simpl in Hj.
    destruct i as [|i]; simpl in Hi.
    + injection Hi as <-. apply Hhead. eapply nth_error_In; exact Hj.
    + apply (Htail i j b c); [lia | exact Hi | exact Hj].
Qed.

Lemma increasing_app (xs ys : list string) :
  increasing (xs ++ ys)
  <-> increasing xs /\ increasing ys
      /\ forall a b, In a xs -> In b ys -> startsBefore a b.
Proof.
  induction xs as [|c xs IH]; simpl.
  - split.
    + intros H; repeat split; [apply increasing_nil | exact H |].
      intros a b [].
    + intros (_ & H & _); exact H.
  - rewrite !increasing_cons, IH. split.
    + intros (Hhead & Hxs & Hys & Hcross). repeat split; trivial.
      * intros b Hb; apply Hhead, in_or_app; left; exact Hb.
      * intros a b [<- | Ha] Hb.
        -- apply Hhead, in_or_app; right; exact Hb.
        -- apply Hcross; assumption.
    + intros ((Hhead & Hxs) & Hys & Hcross). repeat split; trivial.
      * intros b Hb. apply in_app_or in Hb as [Hb | Hb].
        -- apply Hhead; exact Hb.
        -- apply Hcross; [left; reflexivity | exact Hb].
      * intros a b Ha Hb. apply Hcross; [right; exact Ha | exact Hb].
Qed.

Lemma increasingb_sound (xs : list string) :
  increasingb xs = true -> increasing xs.
Proof.
  induction xs as [|a xs IH]; [intros _; apply increasing_nil |].
  destruct xs as [|b xs].
  - intros _. apply increasing_cons; split;
      [intros b [] | apply increasing_nil].
  - intros H. change (startsBeforeb a b && increasingb (b :: xs) = true) in H.
    apply andb_true_iff in H as [Hab Htail].
    apply startsBeforeb_true in Hab. specialize (IH Htail).
    apply increasing_cons; split; [| exact IH].
    intros c [<- | Hc]; [exact Hab |].
    apply (startsBefore_trans a b c Hab).
    apply increasing_cons in IH as [Hb _]. apply Hb; exact Hc.
Qed.

Lemma increasing_NoDup (xs : list string) :
  increasing xs -> NoDup (map Date_new xs).
Proof.
  induction xs as [|a xs IH]; simpl; [constructor |].
  intros H. apply increasing_cons in H as [Hhead Htail].
  constructor; [| apply IH; exact Htail].
  intros Hin. apply in_map_iff in Hin as (b & Hb & Hin).
  destruct (Hhead b Hin) as (s & t & Hs & Ht & Hlt).
  unfold Date_new in Hb. rewrite Hs, Ht in Hb. injection Hb as Hb. lia.
Qed.

Lemma chronological_cons (d : DayPrice number) (days : list (DayPrice number)) :
  chronological (d :: days)
  <-> (forall e a b, In e days -> In a (startTimes d) ->
                     In b (startTimes e) -> startsBefore a b)
      /\ chronological days.
Proof.
  split.
  - intros H; split.
    + intros e a b He Ha Hb. destruct (In_nth_error _ _ He) as [j Hj].
      apply (H 0%nat (S j) d e a b); trivial; lia.
    + intros i j e f a b Hij Hi Hj.
      apply (H (S i) (S j) e f a b); trivial; lia.
  - intros [Hhead Htail] i j e f a b Hij Hi Hj Ha Hb.
    destruct j as [|j]; [lia |]. simpl in Hj.
    destruct i as [|i]; simpl in Hi.
    + injection Hi as <-. apply (Hhead f a b); trivial.
      eapply nth_error_In; exact Hj.
    + apply (Htail i j e f a b); trivial; lia.
Qed.

Lemma chronologicalb_sound (days : list (DayPrice number)) :
  chronologicalb days = true -> chronological days.
Proof.
  induction days as [|d days IH]; simpl.
  - intros _ i j d e a b _ Hi; destruct i; discriminate.
  - intros H. apply andb_true_iff in H as [Hhead Htail].
    apply chronological_cons; split; [| apply IH; exact Htail].
    intros e a b He Ha Hb. apply startsBeforeb_true.
    rewrite forallb_forall in Hhead. specialize (Hhead e He).
    rewrite forallb_forall in Hhead. specialize (Hhead a Ha).
    rewrite forallb_forall in Hhead. exact (Hhead b Hb).
Qed.

Lemma dataset_startTimes (days : list (DayPrice number)) :
  map Point.x (dataset days) = flat_map startTimes days.
Proof.
  unfold dataset, startTimes. induction days as [|d days IH]; simpl.
  - reflexivity.
  - rewrite map_app, IH, map_map. reflexivity.
Qed.

(** Days that are increasing and in chronological order concatenate to
    an increasing series. *)
Lemma flat_map_increasing (days : list (DayPrice number)) :
  (forall d, In d days -> increasing (startTimes d)) ->
  chronological days ->
  increasing (flat_map startTimes days).
Proof.
  induction days as [|d days IH]; simpl; intros Hdays Hchron.
  - apply increasing_nil.
  - apply chronological_cons in Hchron as [Hhead Htail].
    apply increasing_app. split; [apply Hdays; left; reflexivity |].
    split.
    + apply IH; [| exact Htail].
      intros e He; apply Hdays; right; exact He.
    + intros a b Ha Hb. apply in_flat_map in Hb as (e & He & Hb).
      apply (Hhead e a b He Ha Hb).
Qed.

End Order.

(** X18. When the days that a cycle has kept and parsed are each strictly
    increasing by start time and every hour of an earlier one starts
    before every hour of a later one, the series made of them is strictly
    increasing by start time and no start time occurs twice; it is the
    series of any props the cycle returns, and the cycle does return it
    when it is not empty. *)
Theorem series_increasing {number : Type} `{RT : Runtime number}
        (getObject : string -> PromiseSettledResult (GetObjectOutput number))
        (now : Z) (days : list (DayPrice number)) :
  results getObject now = Return days ->
  (forall d, In d days -> increasing (startTimes d)) ->
  chronological days ->
  increasing (map Point.x (dataset days))
  /\ NoDup (map (fun p => Date_new (Point.x p)) (dataset days))
  /\ (forall props,
        getStaticProps getObject now = Return props ->
        data props = dataset days)
  /\ (dataset days <> [] ->
      exists props,
        getStaticProps getObject now = Return props
        /\ data props = dataset days).
Proof.
  intros Hres Hdays Hchron.
  assert (Hinc : increasing (map Point.x (dataset days))).
  { rewrite dataset_startTimes. apply flat_map_increasing; assumption. }
  split; [exact Hinc |]. split.
  - rewrite <- (map_map Point.x Date_new). apply increasing_NoDup; exact Hinc.
  - split.
    + intros props Hprops.
      destruct (getStaticProps_inv getObject now props Hprops)
        as (days' & _ & _ & Hres' & _ & Hdata & _).
      rewrite Hres in Hres'; injection Hres' as <-. exact Hdata.
    + intros Hne.
      destruct (exists_last Hne) as (init & last & Hlast).
      eexists; split;
        [apply (getStaticProps_returns getObject now days init last Hres Hlast)
        | reflexivity].
Qed.

Lemma series_increasing_witness :
  increasing (RT := Helsinki.runtime) (map Point.x Sample.series)
  /\ exists props,
      getStaticProps (RT := Helsinki.runtime) Sample.store_morning
                     Sample.before_noon = Return props
      /\ data props = Sample.series.
Proof.
  destruct (series_increasing (RT := Helsinki.runtime) Sample.store_morning
              Sample.before_noon [Sample.dec30; Sample.dec31])
    as (Hinc & _ & _ & Hret).
  - vm_compute; reflexivity.
  - intros d [<- | [<- | []]]; apply increasingb_sound; vm_compute; reflexivity.
  - apply chronologicalb_sound; vm_compute; reflexivity.
  - split; [exact Hinc |]. apply Hret. discriminate.
Defined.

(** C9 fails in the night after the clock is set back. At
    2023-10-28T21:30:00Z it is 2023-10-29 in Helsinki, and 24 hours later
    it still is: the three keys are those of 2023-10-28, 2023-10-29 and
    2023-10-29 again. On a store whose days are each strictly increasing
    and hold the hours of their own date only, the cycle keeps 2023-10-29
    twice and returns 50 entries in which every start time occurs twice:
    the series is not strictly increasing. *)
Theorem series_repeats_after_long_day :
  dateStrings (RT := Helsinki.runtime) SamplePage.long_day_night
  = ["2023-10-28"; "2023-10-29"; "2023-10-29"]
  /\ requests (RT := Helsinki.runtime) SamplePage.store_autumn
              SamplePage.long_day_night
     = [Sample.stored SamplePage.oct28; Sample.stored SamplePage.oct29;
        Sample.stored SamplePage.oct29]
  /\ increasing (RT := Helsinki.runtime) (startTimes SamplePage.oct28)
  /\ increasing (RT := Helsinki.runtime) (startTimes SamplePage.oct29)
  /\ SamplePage.ownDate SamplePage.oct28 = true
  /\ SamplePage.ownDate SamplePage.oct29 = true
  /\ exists props,
      getStaticProps (RT := Helsinki.runtime) SamplePage.store_autumn
                     SamplePage.long_day_night = Return props
      /\ List.length (data props) = 50%nat
      /\ map Point.x (data props)
         = startTimes SamplePage.oct29 ++ startTimes SamplePage.oct29
      /\ ~ NoDup (map Point.x (data props))
      /\ ~ increasing (RT := Helsinki.runtime) (map Point.x (data props)).
Proof.
  split; [vm_compute; reflexivity |].
  split; [vm_compute; reflexivity |].
  split; [apply increasingb_sound; vm_compute; reflexivity |].
  split; [apply increasingb_sound; vm_compute; reflexivity |].
  split; [vm_compute; reflexivity |].
  split; [vm_compute; reflexivity |].
  eexists. split; [vm_compute; reflexivity |].
  split; [vm_compute; reflexivity |].
  split; [vm_compute; reflexivity |].
  assert (Hfirst : nth_error (startTimes SamplePage.oct29
                              ++ startTimes SamplePage.oct29) 0
                   = Some "2023-10-28T21:00:00.000Z")
    by (vm_compute; reflexivity).
  assert (Hagain : nth_error (startTimes SamplePage.oct29
                              ++ startTimes SamplePage.oct29) 25
                   = Some "2023-10-28T21:00:00.000Z")
    by (vm_compute; reflexivity).
  match goal with
  | |- ~ NoDup ?l /\ _ =>
      assert (Hl : l = startTimes SamplePage.oct29 ++ startTimes SamplePage.oct29)
        by (vm_compute; reflexivity);
      rewrite Hl
  end.
  split.
  - intros Hnodup.
    assert (H : 0%nat = 25%nat); [| discriminate H].
    apply (proj1 (NoDup_nth_error _) Hnodup 0%nat 25%nat).
    + rewrite length_app. vm_compute. lia.
    + rewrite Hfirst, Hagain. reflexivity.
  - intros Hinc.
    destruct (Hinc 0%nat 25%nat _ _ ltac:(lia) Hfirst Hagain)
      as (t & t' & Ht & Ht' & Hlt).
    rewrite Ht in Ht'. injection Ht' as <-. lia.
Qed.

(** ** The locator and the box of the current hour *)

(** C4. On a series whose hours do not overlap, the locator answers -1
    exactly when [now] lies in the hour of no entry; otherwise it answers
    the index of the entry whose hour holds [now], and that entry is the
    only one. *)
Theorem findCurrentTimeIndex_locates {number : Type} `{RT : Runtime number}
        (now : Z) (data : list (Point.t number)) :
  nonOverlapping data ->
  (findCurrentTimeIndex now data = -1
   <-> forall i p, nth_error data i = Some p -> ~ holdsNow now p)
  /\ (forall i p,
        nth_error data i = Some p -> holdsNow now p ->
        findCurrentTimeIndex now data = Z.of_nat i)
  /\ (findCurrentTimeIndex now data <> -1 ->
      exists i p,
        findCurrentTimeIndex now data = Z.of_nat i
        /\ nth_error data i = Some p /\ holdsNow now p
        /\ forall j q, nth_error data j = Some q -> holdsNow now q -> j = i).
Proof.
  intros Hdisjoint.
  destruct (findCurrentTimeIndex_inv now data)
    as [[Hnone Hall] | (k & p & Hres & Hk & Hp & Hbefore)].
  - split; [split; [intros _; exact Hall | intros _; exact Hnone] |].
    split.
    + intros i q Hi Hq. destruct (Hall i q Hi Hq).
    + intros Hfound; destruct (Hfound Hnone).
  - assert (Honly : forall j q,
               nth_error data j = Some q -> holdsNow now q -> j = k).
    { intros j q Hj Hq. apply (Hdisjoint j k q p now Hj Hk Hq Hp). }
    split; [split |].
    + intros Hminus; lia.
    + intros Hall; destruct (Hall k p Hk Hp).
    + split.
      * intros i q Hi Hq.
        apply (findCurrentTimeIndex_at now data i q Hdisjoint Hi Hq).
      * intros _. exists k, p. repeat split; trivial.
Qed.

Lemma nth_error_combine_seq {A : Type} (l : list A) (k i : nat) (a : A) :
  nth_error l i = Some a -> In (a, (k + i)%nat) (combine l (seq k (List.length l))).
Proof.
  revert k i; induction l as [|b l IH]; intros k i Hi.
  - destruct i; discriminate.
  - destruct i as [|i]; simpl in *.
    + injection Hi as <-. left. f_equal. lia.
    + right. replace (k + S i)%nat with (S k + i)%nat by lia.
      apply IH; exact Hi.
Qed.

Lemma hourlyb_sound {number : Type} `{RT : Runtime number}
      (t0 : Z) (data : list (Point.t number)) :
  hourlyb t0 data = true -> hourly t0 data.
Proof.
  unfold hourlyb, hourly. rewrite forallb_forall. intros Hall i p Hi.
  specialize (Hall (p, i) (nth_error_combine_seq data 0 i p Hi)).
  simpl in Hall. destruct (Date_parse (Point.x p)) as [s|]; [|discriminate].
  apply Z.eqb_eq in Hall. rewrite Hall. reflexivity.
Qed.

(** The hours of entries that start on consecutive hours do not overlap. *)
Lemma hourly_nonOverlapping {number : Type} `{RT : Runtime number}
      (t0 : Z) (data : list (Point.t number)) :
  hourly t0 data -> nonOverlapping data.
Proof.
  intros Hhourly i j p q t Hi Hj (s & Hs & Ht) (s' & Hs' & Ht').
  rewrite (Hhourly i p Hi) in Hs; injection Hs as <-.
  rewrite (Hhourly j q Hj) in Hs'; injection Hs' as <-.
  unfold msPerHour in *. lia.
Qed.

Lemma series_nonOverlapping :
  nonOverlapping (RT := Helsinki.runtime) Sample.series.
Proof.
  apply (hourly_nonOverlapping 1672351200000), hourlyb_sound.
  vm_compute; reflexivity.
Defined.

Lemma findCurrentTimeIndex_locates_witness :
  nonOverlapping (RT := Helsinki.runtime) Sample.series
  /\ findCurrentTimeIndex (RT := Helsinki.runtime) Sample.before_noon
                          Sample.series = 37.
Proof.
  split; [exact series_nonOverlapping |].
  destruct (findCurrentTimeIndex_locates (RT := Helsinki.runtime)
              Sample.before_noon Sample.series series_nonOverlapping)
    as (_ & Hat & _).
  apply (Hat 37%nat {| Point.x := "2022-12-31T11:00:00.000Z";
                       Point.y := ((13 # 2) * 1.24)%Q;
                       Point.label := "8" |}).
  - vm_compute; reflexivity.
  - exists 1672484400000. split; [vm_compute; reflexivity |].
    vm_compute. split; [discriminate | reflexivity].
Defined.

(** C10. The box of the current hour is there exactly when the locator
    finds an index [i]; it then spans [i - 0.5, i + 0.5] across and 0 to
    [maxPrice] up. On a series whose hours do not overlap, half an
    hour into the hour of the 10th entry the locator answers 9 and the box
    spans [8.5, 9.5]. *)
Theorem annotateCurrentTime_box {number : Type} `{RT : Runtime number}
        (darkMode : bool) (now : Z) (data : list (Point.t number)) :
  (annotateCurrentTime darkMode now data = None
   <-> findCurrentTimeIndex now data = -1)
  /\ (forall i,
        findCurrentTimeIndex now data = i -> i <> -1 ->
        exists backgroundColor,
          annotateCurrentTime darkMode now data
          = Some (Box (inject_Z i - 0.5) (inject_Z i + 0.5) 0 maxPrice
                      backgroundColor 0))
  /\ (forall p s,
        nonOverlapping data ->
        nth_error data 9 = Some p -> Date_parse (Point.x p) = Some s ->
        now = s + 30 * msPerMinute ->
        findCurrentTimeIndex now data = 9
        /\ exists xMin xMax backgroundColor,
            annotateCurrentTime darkMode now data
            = Some (Box xMin xMax 0 100 backgroundColor 0)
            /\ (xMin == 8.5)%Q /\ (xMax == 9.5)%Q).
Proof.
  assert (Hbox : forall i,
             findCurrentTimeIndex now data = i -> i <> -1 ->
             exists backgroundColor,
               annotateCurrentTime darkMode now data
               = Some (Box (inject_Z i - 0.5) (inject_Z i + 0.5) 0 maxPrice
                           backgroundColor 0)).
  { intros i Hi Hfound. unfold annotateCurrentTime. rewrite Hi.
    destruct (i =? -1) eqn:E; [apply Z.eqb_eq in E; contradiction |].
    eexists; reflexivity. }
  split; [| split; [exact Hbox |]].
  - unfold annotateCurrentTime.
    destruct (findCurrentTimeIndex now data =? -1) eqn:E.
    + apply Z.eqb_eq in E. split; trivial.
    + apply Z.eqb_neq in E. split; [discriminate | contradiction].
  - intros p s Hdisjoint Hp Hs Hnow.
    assert (Hidx : findCurrentTimeIndex now data = 9).
    { apply (findCurrentTimeIndex_at now data 9%nat p Hdisjoint Hp).
      exists s. split; [exact Hs |].
      unfold msPerHour, msPerMinute in *. lia. }
    split; [exact Hidx |].
    destruct (Hbox 9 Hidx) as [c Hc]; [lia |].
    eexists _, _, c. split; [exact Hc |]. split; reflexivity.
Qed.

Lemma annotateCurrentTime_box_witness :
  findCurrentTimeIndex (RT := Helsinki.runtime) 1672385400000 Sample.series = 9
  /\ exists xMin xMax backgroundColor,
      annotateCurrentTime (RT := Helsinki.runtime) false 1672385400000
                          Sample.series
      = Some (Box xMin xMax 0 100 backgroundColor 0)
      /\ (xMin == 8.5)%Q /\ (xMax == 9.5)%Q.
Proof.
  destruct (annotateCurrentTime_box (RT := Helsinki.runtime) false
              1672385400000 Sample.series) as (_ & _ & Hscenario).
  apply (Hscenario {| Point.x := "2022-12-30T07:00:00.000Z";
                      Point.y := ((9 # 2) * 1.24)%Q;
                      Point.label := "6" |} 1672383600000).
  - exact series_nonOverlapping.
  - vm_compute; reflexivity.
  - vm_compute; reflexivity.
  - vm_compute; reflexivity.
Defined.

(** ** Day boundaries and weekday labels *)

Section Scan.

Lemma changes_bounds (last : string) (k : nat) (dates : list string) :
  Forall (fun i => (k <= i < k + List.length dates)%nat) (changes last k dates).
Proof.
  revert last k; induction dates as [|d dates IH]; intros last k; simpl.
  - constructor.
  - apply Forall_app; split.
    + destruct (negb (last =? d)%string && truthy last);
        [constructor; [lia | constructor] | constructor].
    + eapply Forall_impl; [| apply (IH d (S k))]. simpl; intros i; lia.
Qed.

Lemma changes_sorted (last : string) (k : nat) (dates : list string) :
  StronglySorted lt (changes last k dates).
Proof.
  revert last k; induction dates as [|d dates IH]; intros last k; simpl.
  - constructor.
  - destruct (negb (last =? d)%string && truthy last); simpl; [| apply IH].
    constructor; [apply IH |].
    eapply Forall_impl; [| apply (changes_bounds d (S k) dates)].
    simpl; intros i; lia.
Qed.


Lemma changes_start (d : string) (k : nat) (dates : list string) :
  changes "" k (d :: dates) = changes d (S k) dates.
Proof. simpl. rewrite andb_false_r. reflexivity. Qed.




End Scan.

Section DayChanges.
Context {number : Type} `{RT : Runtime number}.

(** The [reduce] adds to its indices what the scan keeps. *)
Lemma fold_dayChange (data : list (Point.t number)) (k : nat)
      (acc : accumulator) :
  indices (fold_left dayChange (combine data (seq k (List.length data))) acc)
  = indices acc ++ changes (lastDate acc) k (localDates data).
Proof.
  revert k acc; induction data as [|p data IH]; intros k acc; simpl.
  - rewrite app_nil_r. reflexivity.
  - rewrite IH. fold (localDateOf p). unfold truthy.
    destruct (lastDate acc =? localDateOf p)%string eqn:E; simpl.
    + apply String.eqb_eq in E. rewrite E. reflexivity.
    + destruct (lastDate acc =? "")%string; simpl;
        [reflexivity | rewrite <- app_assoc; reflexivity].
Qed.

Lemma foo_indices (data : list (Point.t number)) :
  indices (foo data) = changes "" 0 (localDates data).
Proof. unfold foo. rewrite fold_dayChange. reflexivity. Qed.

Lemma foo_indices_bounds (data : list (Point.t number)) :
  Forall (fun i => (i < List.length data)%nat) (indices (foo data)).
Proof.
  rewrite foo_indices.
  eapply Forall_impl; [| apply changes_bounds].
  simpl. unfold localDates. rewrite length_map. intros i; lia.
Qed.



Lemma mapM_Forall2 {A B : Type} (f : A -> Completion B) (l : list A) :
  (forall a, In a l -> exists b, f a = Return b) ->
  exists bs, mapM f l = Return bs
             /\ Forall2 (fun a b => f a = Return b) l bs.
Proof.
  induction l as [|a l IH]; intros Hall; simpl.
  - exists []. split; [reflexivity | constructor].
  - destruct (Hall a (or_introl eq_refl)) as [b Hb].
    destruct IH as (bs & Hbs & Hall2);
      [intros c Hc; apply Hall; right; exact Hc |].
    exists (b :: bs). rewrite Hb, Hbs. split; [reflexivity |].
    constructor; assumption.
Qed.

Lemma Forall2_removelast {A B : Type} (R : A -> B -> Prop)
      (l : list A) (l' : list B) :
  Forall2 R l l' -> Forall2 R (removelast l) (removelast l').
Proof.
  induction 1 as [|a b l l' Hab Hrest IH]; simpl; [constructor |].
  destruct Hrest; [constructor |]. constructor; assumption.
Qed.

Lemma removelast_length {A : Type} (l : list A) :
  List.length (removelast l) = (List.length l - 1)%nat.
Proof.
  induction l as [|a l IH]; [reflexivity |].
  destruct l as [|b l]; [reflexivity |].
  change (S (List.length (removelast (b :: l))) = (S (S (List.length l)) - 1)%nat).
  rewrite IH. simpl. lia.
Qed.

(** On a series that is not empty [annotateDayChanges] returns: the
    lines of the boundaries, then the labels of the starts of the days
    without the last one. *)
Lemma annotateDayChanges_returns (darkMode : bool)
      (data : list (Point.t number)) :
  data <> [] ->
  exists a2,
    annotateDayChanges darkMode data
    = Return (map (dayChangeLine darkMode) (indices (foo data))
              ++ removelast a2)
    /\ Forall2 (weekdayLabelAt darkMode data) (0%nat :: indices (foo data)) a2.
Proof.
  intros Hne. unfold annotateDayChanges.
  assert (Hlen : (0 <? List.length data)%nat = true).
  { apply Nat.ltb_lt. destruct data; [contradiction | simpl; lia]. }
  rewrite Hlen.
  destruct (mapM_Forall2 (dayChangeLabel darkMode data)
                         (0%nat :: indices (foo data)))
    as (a2 & Ha2 & Hall).
  - intros i Hi. unfold dayChangeLabel.
    assert (Hi' : (i < List.length data)%nat).
    { destruct Hi as [<- | Hi]; [apply Nat.ltb_lt; exact Hlen |].
      pose proof (foo_indices_bounds data) as Hb.
      rewrite Forall_forall in Hb. apply Hb; exact Hi. }
    destruct (nth_error data i) eqn:E; [eexists; reflexivity |].
    apply nth_error_None in E. lia.
  - exists a2. rewrite Ha2. split; [reflexivity |].
    eapply Forall2_impl; [| exact Hall].
    intros i a Hia. unfold dayChangeLabel in Hia. unfold weekdayLabelAt.
    destruct (nth_error data i) as [p|]; [| discriminate].
    injection Hia as <-. exists p. split; reflexivity.
Qed.

Lemma weekdayLabelAt_isLabel (darkMode : bool) (data : list (Point.t number))
      (l : list nat) (labels : list AnnotationOptions) :
  Forall2 (weekdayLabelAt darkMode data) l labels -> Forall isLabel labels.
Proof.
  induction 1 as [|i a l labels (p & _ & ->) _ IH]; constructor;
    [exact I | exact IH].
Qed.

End DayChanges.







(** ** The model on the sample data *)

Example civil_from_days_samples :
  civil_from_days 0 = (1970, 1, 1)
  /\ civil_from_days (-1) = (1969, 12, 31)
  /\ civil_from_days (Day 1672531200000) = (2023, 1, 1)
  /\ days_from_civil 2023 1 1 * msPerDay = 1672531200000
  /\ civil_from_days (days_from_civil 2024 2 29) = (2024, 2, 29)
  /\ civil_from_days (days_from_civil 2024 2 29 + 1) = (2024, 3, 1)
  /\ civil_from_days (days_from_civil 1900 2 28 + 1) = (1900, 3, 1).
Proof. repeat split; reflexivity. Qed.

Example setUTCDate_rolls_over :
  setUTCDate (setUTCHours 1675166400000 12 0 0 0) (31 + 1)
  = setUTCHours 1675166400000 12 0 0 0 + msPerDay
  /\ Helsinki.toISOString (setUTCDate (setUTCHours 1675166400000 12 0 0 0) 32)
     = "2023-02-01T12:00:00.000Z".
Proof. split; vm_compute; reflexivity. Qed.

Example Helsinki_samples :
  Helsinki.parse_iso "2022-12-31T13:00:00.000Z" = Some Sample.after_noon
  /\ Helsinki.parse_iso "2023-02-29T21:00:00.000Z" = None
  /\ Helsinki.local_date 1672524000000 = "2023-01-01"
  /\ Helsinki.local_weekday 1672524000000 = "sunnuntai"
  /\ Helsinki.summer_time 1679792399999 = false
  /\ Helsinki.summer_time 1679792400000 = true
  /\ Helsinki.local_date 1679864400000 = "2023-03-27"
  /\ dateStrings (RT := Helsinki.runtime) Sample.after_noon
     = ["2022-12-30"; "2022-12-31"; "2023-01-01"].
Proof. repeat split; vm_compute; reflexivity. Qed.

Example annotateDayChanges_sample :
  annotateDayChanges (RT := Helsinki.runtime) false Sample.series
  = Return [Line 0 100 23.5 23.5 "rgba(0,0,0,0.5)";
            Label 1 "start" 99 "perjantai" "rgba(0,0,0,0.5)"].
Proof. vm_compute; reflexivity. Qed.

(** * Further properties of the page *)

(** ** How a cycle ends *)

Section CycleOutcomes.
Context {number : Type} `{RT : Runtime number}.

Lemma JSON_parse_Body_Return (v : GetObjectOutput number) (d : DayPrice number) :
  JSON_parse_Body v = Return d <-> Body v = Some (json d).
Proof.
  unfold JSON_parse_Body. destruct (Body v) as [[d'|]|]; split; intros H;
    try discriminate; injection H as <-; reflexivity.
Qed.

Lemma JSON_parse_Body_Throw (v : GetObjectOutput number) (e : Exn) :
  JSON_parse_Body v = Throw e -> e = SyntaxError /\ ~ parses v.
Proof.
  unfold JSON_parse_Body, parses. destruct (Body v) as [[d'|]|].
  - discriminate.
  - intros [= <-]. split; [reflexivity | intros [d H]; discriminate].
  - intros [= <-]. split; [reflexivity | intros [d H]; discriminate].
Qed.

Lemma mapM_parse_Throw (l : list (GetObjectOutput number)) (e : Exn) :
  mapM JSON_parse_Body l = Throw e ->
  e = SyntaxError /\ exists v, In v l /\ ~ parses v.
Proof.
  induction l as [|v l IH]; simpl; [discriminate |].
  destruct (JSON_parse_Body v) as [d|e'] eqn:Hv; simpl.
  - destruct (mapM JSON_parse_Body l) as [ds|e'']; simpl; [discriminate |].
    intros [= <-]. destruct (IH eq_refl) as (-> & w & Hw & Hbad).
    split; [reflexivity |]. exists w. split; [right; exact Hw | exact Hbad].
  - intros [= <-]. apply JSON_parse_Body_Throw in Hv as [-> Hbad].
    split; [reflexivity |]. exists v. split; [left; reflexivity | exact Hbad].
Qed.

Lemma mapM_parse_Return (l : list (GetObjectOutput number))
      (days : list (DayPrice number)) :
  mapM JSON_parse_Body l = Return days -> forall v, In v l -> parses v.
Proof.
  revert days; induction l as [|v l IH]; intros days; simpl;
    [intros _ w [] |].
  destruct (JSON_parse_Body v) as [d|e'] eqn:Hv; simpl; [| discriminate].
  destruct (mapM JSON_parse_Body l) as [ds|e'']; simpl; [| discriminate].
  intros _ w [<- | Hw].
  - exists d. apply JSON_parse_Body_Return; exact Hv.
  - apply (IH ds eq_refl w Hw).
Qed.

Lemma results_cases
      (getObject : string -> PromiseSettledResult (GetObjectOutput number))
      (now : Z) :
  (exists days, results getObject now = Return days
                /\ forall v, In v (retained getObject now) -> parses v)
  \/ (results getObject now = Throw SyntaxError
      /\ exists v, In v (retained getObject now) /\ ~ parses v).
Proof.
  unfold results.
  destruct (mapM JSON_parse_Body (retained getObject now)) as [days|e] eqn:H.
  - left. exists days. split; [reflexivity |].
    apply (mapM_parse_Return _ days H).
  - right. destruct (mapM_parse_Throw _ e H) as (-> & Hbad).
    split; [reflexivity | exact Hbad].
Qed.

End CycleOutcomes.

Section CycleCases.
Context {number : Type} `{RT : Runtime number}.

Lemma not_parses (v : GetObjectOutput number) :
  ~ parses v <-> Body v = None \/ Body v = Some malformed.
Proof.
  unfold parses. destruct (Body v) as [[d|]|]; split.
  - intros H. destruct H. exists d; reflexivity.
  - intros [H | H]; discriminate.
  - intros _; right; reflexivity.
  - intros _ [d H]; discriminate.
  - intros _; left; reflexivity.
  - intros _ [d H]; discriminate.
Qed.

Lemma mapM_parse_Forall2 (l : list (GetObjectOutput number))
      (days : list (DayPrice number)) :
  mapM JSON_parse_Body l = Return days
  <-> Forall2 (fun v d => Body v = Some (json d)) l days.
Proof.
  revert days; induction l as [|v l IH]; intros days; simpl.
  - split; [intros [= <-]; constructor | intros H; inversion H; reflexivity].
  - destruct (JSON_parse_Body v) as [d|e] eqn:Hv; simpl.
    + apply JSON_parse_Body_Return in Hv.
      destruct (mapM JSON_parse_Body l) as [ds|e] eqn:Hl; simpl.
      * split.
        -- intros [= <-]. constructor; [exact Hv | apply IH; reflexivity].
        -- intros H. inversion H as [|? d' ? ds' Hd Hrest]; subst.
           rewrite Hv in Hd. injection Hd as <-.
           apply IH in Hrest. injection Hrest as <-. reflexivity.
      * split; [discriminate |].
        intros H. inversion H as [|? d' ? ds' Hd Hrest]; subst.
        apply IH in Hrest. discriminate.
    + split; [discriminate |].
      intros H. inversion H as [|? d' ? ds' Hd Hrest]; subst.
      apply JSON_parse_Body_Return in Hd. rewrite Hd in Hv. discriminate.
Qed.

(** The three ways a cycle ends. *)
Lemma getStaticProps_cases
      (getObject : string -> PromiseSettledResult (GetObjectOutput number))
      (now : Z) :
  (getStaticProps getObject now = Throw SyntaxError
   /\ exists v, In v (retained getObject now) /\ ~ parses v)
  \/ (exists days,
        results getObject now = Return days
        /\ ((dataset days = []
             /\ getStaticProps getObject now = Throw TypeError)
            \/ (dataset days <> []
                /\ exists props,
                    getStaticProps getObject now = Return props))).
Proof.
  destruct (results_cases getObject now)
    as [(days & Hres & Hall) | (Hres & v & Hv & Hbad)].
  - right. exists days. split; [exact Hres |].
    destruct (dataset days) as [|p ps] eqn:Hds.
    + left. split; [reflexivity |].
      apply (getStaticProps_empty getObject now days Hres Hds).
    + right. assert (Hne : dataset days <> []) by (rewrite Hds; discriminate).
      split; [rewrite <- Hds; exact Hne |].
      destruct (exists_last Hne) as (init & last & Hlast).
      eexists.
      apply (getStaticProps_returns getObject now days init last Hres Hlast).
  - left. split; [| exists v; split; assumption].
    unfold getStaticProps. rewrite Hres. reflexivity.
Qed.

End CycleCases.

(** X1. How a cycle ends. It throws a SyntaxError exactly when one of
    the kept responses has no body or a body that is not JSON. When every
    kept body is the JSON of a day, it returns the hours of these days if
    there is one, and throws a TypeError if there is none. *)
Theorem getStaticProps_outcomes {number : Type} `{RT : Runtime number}
        (getObject : string -> PromiseSettledResult (GetObjectOutput number))
        (now : Z) :
  (getStaticProps getObject now = Throw SyntaxError
   <-> exists v,
       In v (retained getObject now)
       /\ (Body v = None \/ Body v = Some malformed))
  /\ (forall days,
        Forall2 (fun v d => Body v = Some (json d))
                (retained getObject now) days ->
        (flat_map (fun d => map toPoint (hourPrices d)) days <> [] ->
         exists props,
           getStaticProps getObject now = Return props
           /\ data props = flat_map (fun d => map toPoint (hourPrices d)) days)
        /\ (flat_map (fun d => map toPoint (hourPrices d)) days = [] ->
            getStaticProps getObject now = Throw TypeError)).
Proof.
  split.
  - destruct (getStaticProps_cases getObject now)
      as [(Hthrow & v & Hv & Hbad)
         | (days & Hres & [(Hempty & Hthrow) | (Hne & props & Hret)])].
    + rewrite Hthrow. split; [| reflexivity]. intros _. exists v.
      split; [exact Hv | apply not_parses; exact Hbad].
    + rewrite Hthrow. split; [discriminate |].
      intros (v & Hv & Hbad). apply not_parses in Hbad.
      destruct (Hbad (mapM_parse_Return _ days Hres v Hv)).
    + rewrite Hret. split; [discriminate |].
      intros (v & Hv & Hbad). apply not_parses in Hbad.
      destruct (Hbad (mapM_parse_Return _ days Hres v Hv)).
  - intros days Hdays. apply mapM_parse_Forall2 in Hdays.
    change (flat_map (fun d => map toPoint (hourPrices d)) days)
      with (dataset days).
    split.
    + intros Hne. destruct (exists_last Hne) as (init & last & Hlast).
      eexists. split.
      * apply (getStaticProps_returns getObject now days init last
                                      Hdays Hlast).
      * reflexivity.
    + intros Hempty.
      apply (getStaticProps_empty getObject now days Hdays Hempty).
Qed.

(** Which responses are kept when some requests fail: both of two
    fulfilled ones, in request order, and the only one when one is
    fulfilled. *)
Lemma retained_partial {number : Type} `{RT : Runtime number}
        (getObject : string -> PromiseSettledResult (GetObjectOutput number))
        (now : Z) (a b : GetObjectOutput number) :
  (requests getObject now = [fulfilled a; fulfilled b; rejected] ->
   retained getObject now = [a; b])
  /\ (requests getObject now = [fulfilled a; rejected; fulfilled b] ->
      retained getObject now = [a; b])
  /\ (requests getObject now = [rejected; fulfilled a; fulfilled b] ->
      retained getObject now = [a; b])
  /\ (requests getObject now = [fulfilled a; rejected; rejected] ->
      retained getObject now = [a])
  /\ (requests getObject now = [rejected; fulfilled a; rejected] ->
      retained getObject now = [a])
  /\ (requests getObject now = [rejected; rejected; fulfilled a] ->
      retained getObject now = [a]).
Proof.
  unfold retained. repeat split; intros ->; reflexivity.
Qed.

(** X3. When all three requests are fulfilled the oldest response plays
    no part: the cycle ends as it does for a store whose first request
    has any other outcome, whatever the body of the oldest response. *)
Theorem oldest_of_three_ignored {number : Type} `{RT : Runtime number}
        (getObject getObject' :
           string -> PromiseSettledResult (GetObjectOutput number))
        (now : Z) (v1 v2 v3 : GetObjectOutput number)
        (r : PromiseSettledResult (GetObjectOutput number)) :
  requests getObject now = [fulfilled v1; fulfilled v2; fulfilled v3] ->
  requests getObject' now = [r; fulfilled v2; fulfilled v3] ->
  getStaticProps getObject now = getStaticProps getObject' now.
Proof.
  intros H H'.
  assert (Hret : retained getObject now = retained getObject' now).
  { unfold retained. rewrite H, H'. destruct r; reflexivity. }
  unfold getStaticProps, results. rewrite Hret. reflexivity.
Qed.

Lemma oldest_of_three_ignored_witness :
  getStaticProps (RT := Helsinki.runtime) SamplePage.store_bad_oldest
                 Sample.after_noon
  = getStaticProps (RT := Helsinki.runtime) Sample.store_afternoon
                   Sample.after_noon.
Proof.
  apply (oldest_of_three_ignored (RT := Helsinki.runtime)
           SamplePage.store_bad_oldest Sample.store_afternoon
           Sample.after_noon
           {| Body := Some malformed |}
           {| Body := Some (json Sample.dec31) |}
           {| Body := Some (json Sample.jan01) |}
           (Sample.stored Sample.dec30));
    vm_compute; reflexivity.
Defined.

(** X2. When the requests for yesterday and today are fulfilled with days
    that parse and tomorrow's is rejected, the cycle returns, unless both
    days are empty, the hours of yesterday followed by the hours of
    today. *)
Theorem tomorrow_missing {number : Type} `{RT : Runtime number}
        (getObject : string -> PromiseSettledResult (GetObjectOutput number))
        (now : Z) (a b : GetObjectOutput number)
        (yesterday today : DayPrice number) :
  requests getObject now = [fulfilled a; fulfilled b; rejected] ->
  Body a = Some (json yesterday) -> Body b = Some (json today) ->
  hourPrices yesterday ++ hourPrices today <> [] ->
  exists props,
    getStaticProps getObject now = Return props
    /\ data props
       = map toPoint (hourPrices yesterday) ++ map toPoint (hourPrices today).
Proof.
  intros Hreq Ha Hb Hne.
  assert (Hres : results getObject now = Return [yesterday; today]).
  { unfold results, retained. rewrite Hreq. simpl.
    unfold JSON_parse_Body. rewrite Ha, Hb. reflexivity. }
  assert (Hds : dataset [yesterday; today]
                = map toPoint (hourPrices yesterday)
                  ++ map toPoint (hourPrices today)).
  { unfold dataset. simpl. rewrite app_nil_r. reflexivity. }
  assert (Hne' : dataset [yesterday; today] <> []).
  { rewrite Hds, <- map_app. intros H. apply map_eq_nil in H. contradiction. }
  destruct (exists_last Hne') as (init & last & Hlast).
  eexists. split.
  - apply (getStaticProps_returns getObject now _ init last Hres Hlast).
  - exact Hds.
Qed.

Lemma tomorrow_missing_witness :
  exists props,
    getStaticProps (RT := Helsinki.runtime) Sample.store_morning
                   Sample.before_noon = Return props
    /\ List.length (data props) = 48%nat.
Proof.
  destruct (tomorrow_missing (RT := Helsinki.runtime) Sample.store_morning
              Sample.before_noon
              {| Body := Some (json Sample.dec30) |}
              {| Body := Some (json Sample.dec31) |}
              Sample.dec30 Sample.dec31)
    as (props & Hret & Hdata).
  - vm_compute; reflexivity.
  - reflexivity.
  - reflexivity.
  - discriminate.
  - exists props. split; [exact Hret |]. rewrite Hdata.
    vm_compute; reflexivity.
Defined.

(** ** The validity of the page, continued *)

Lemma nextUpdate_invalid (now : Z) :
  nextUpdate now None = setUTCHours now 12 0 0 0.
Proof. reflexivity. Qed.

(** X4. A last entry whose start time cannot be read does not stop the
    cycle: it returns the series, valid until noon UTC of the day of
    [now], or for 60 seconds when that is less than a minute away or
    past. *)
Theorem unreadable_last_startTime {number : Type} `{RT : Runtime number}
        (getObject : string -> PromiseSettledResult (GetObjectOutput number))
        (now : Z) (days : list (DayPrice number))
        (init : list (Point.t number)) (last : Point.t number) :
  results getObject now = Return days ->
  dataset days = init ++ [last] ->
  Date_parse (Point.x last) = None ->
  getStaticProps getObject now
  = Return {| data := dataset days;
              revalidate :=
                Z.max ((12 * msPerHour - TimeWithinDay now) / 1000) 60 |}.
Proof.
  intros Hres Hds Hnan.
  rewrite (getStaticProps_returns getObject now days init last Hres Hds).
  do 2 f_equal. unfold dataValidForSeconds, Date_new. rewrite Hnan.
  rewrite nextUpdate_invalid, Day_setUTCHours_noon.
  do 2 f_equal. unfold TimeWithinDay, Day, msPerDay, msPerHour.
  pose proof (Z.div_mod now 86400000). lia.
Qed.

Lemma unreadable_last_startTime_witness :
  exists props,
    getStaticProps (RT := Helsinki.runtime) SamplePage.store_unreadable
                   Sample.before_noon = Return props
    /\ revalidate props = 3600.
Proof.
  eexists. split.
  - apply (unreadable_last_startTime (RT := Helsinki.runtime)
             SamplePage.store_unreadable Sample.before_noon
             [SamplePage.unreadable] []
             {| Point.x := "soon"; Point.y := ((7 # 1) * 1.24)%Q;
                Point.label := "9" |});
      vm_compute; reflexivity.
  - vm_compute; reflexivity.
Defined.

(** X5. While the series ends on the UTC day of [now], the validity is
    counted to noon of that day: it is the whole seconds left until noon,
    never more than 43200, and it is 60 from one minute before noon to
    the end of the day. *)
Theorem dataValidForSeconds_same_day (now s : Z) :
  Day s = Day now ->
  dataValidForSeconds now (Some s)
  = Z.max ((12 * msPerHour - TimeWithinDay now) / 1000) 60
  /\ 60 <= dataValidForSeconds now (Some s) <= 43200
  /\ (12 * msPerHour - 61 * msPerSecond < TimeWithinDay now ->
      dataValidForSeconds now (Some s) = 60).
Proof.
  intros Hday. unfold dataValidForSeconds.
  rewrite (nextUpdate_same_day now s Hday), Day_setUTCHours_noon.
  assert (Hgap : Day now * msPerDay + 12 * msPerHour - now
                 = 12 * msPerHour - TimeWithinDay now).
  { unfold TimeWithinDay, Day, msPerDay, msPerHour.
    pose proof (Z.div_mod now 86400000). lia. }
  rewrite Hgap.
  assert (Hrange : 0 <= TimeWithinDay now < msPerDay)
    by (unfold TimeWithinDay, msPerDay; apply Z.mod_pos_bound; lia).
  unfold msPerHour, msPerDay, msPerSecond in *.
  split; [reflexivity |]. split.
  - assert ((12 * 3600000 - TimeWithinDay now) / 1000 <= 43200)
      by (apply Z.div_le_upper_bound; lia).
    lia.
  - intros Hlate.
    assert ((12 * 3600000 - TimeWithinDay now) / 1000 < 61)
      by (apply Z.div_lt_upper_bound; lia).
    lia.
Qed.

Lemma dataValidForSeconds_same_day_witness :
  dataValidForSeconds Sample.after_noon (Some 1672520400000) = 60.
Proof.
  apply (dataValidForSeconds_same_day Sample.after_noon 1672520400000);
    vm_compute; reflexivity.
Defined.

(** ** The series, continued *)

(** X6. The series keeps every hour of the kept days, in their order, and
    removes none: a start time occurs in it as often as it occurs in the
    days taken together. *)
Theorem dataset_keeps_every_hour {number : Type} `{RT : Runtime number}
        (days : list (DayPrice number)) :
  map Point.x (dataset days) = flat_map startTimes days
  /\ List.length (dataset days)
     = list_sum (map (fun d => List.length (hourPrices d)) days)
  /\ forall x,
      count_occ string_dec (map Point.x (dataset days)) x
      = list_sum (map (fun d => count_occ string_dec (startTimes d) x) days).
Proof.
  split; [apply dataset_startTimes |]. split.
  - unfold dataset. induction days as [|d days IH]; simpl; [reflexivity |].
    rewrite length_app, length_map, IH. reflexivity.
  - intros x. rewrite dataset_startTimes.
    induction days as [|d days IH]; simpl; [reflexivity |].
    rewrite count_occ_app, IH. reflexivity.
Qed.

(** ** The current hour, continued *)

(** X7. Without any assumption on the series, the locator answers -1 or an
    index of the series; -1 exactly when no entry's hour holds [now], and
    otherwise the smallest index whose hour does. *)
Theorem findCurrentTimeIndex_first {number : Type} `{RT : Runtime number}
        (now : Z) (data : list (Point.t number)) :
  -1 <= findCurrentTimeIndex now data < Z.of_nat (List.length data)
  /\ (findCurrentTimeIndex now data = -1
      <-> forall i p, nth_error data i = Some p -> ~ holdsNow now p)
  /\ (forall k,
        findCurrentTimeIndex now data = Z.of_nat k ->
        exists p,
          nth_error data k = Some p /\ holdsNow now p
          /\ forall j q, (j < k)%nat -> nth_error data j = Some q ->
                         ~ holdsNow now q).
Proof.
  destruct (findCurrentTimeIndex_inv now data)
    as [[Hnone Hall] | (k & p & Hres & Hk & Hp & Hbefore)].
  - rewrite Hnone. split; [lia |]. split.
    + split; [intros _; exact Hall | reflexivity].
    + intros k Hk. lia.
  - rewrite Hres.
    assert (Hlt : (k < List.length data)%nat)
      by (apply nth_error_Some; rewrite Hk; discriminate).
    split; [lia |]. split.
    + split; [lia | intros Hall; destruct (Hall k p Hk Hp)].
    + intros k' Hk'. apply Nat2Z.inj in Hk'. subst k'.
      exists p. split; [exact Hk | split; [exact Hp | exact Hbefore]].
Qed.

(** X8. [getCurrentPrice] never throws. It answers "-" when no entry's
    hour holds [now], which is when there is no box of the current hour,
    and otherwise the price, with two digits, of the first entry whose
    hour holds [now]. *)
Theorem getCurrentPrice_shows {number : Type} `{RT : Runtime number}
        (darkMode : bool) (now : Z) (data : list (Point.t number)) :
  (exists text, getCurrentPrice now data = Return text)
  /\ ((forall i p, nth_error data i = Some p -> ~ holdsNow now p) ->
      getCurrentPrice now data = Return "-")
  /\ (annotateCurrentTime darkMode now data = None ->
      getCurrentPrice now data = Return "-")
  /\ (forall k p,
        nth_error data k = Some p -> holdsNow now p ->
        (forall j q, (j < k)%nat -> nth_error data j = Some q ->
                     ~ holdsNow now q) ->
        getCurrentPrice now data = Return (toFixed (Point.y p) 2)
        /\ exists backgroundColor,
            annotateCurrentTime darkMode now data
            = Some (Box (num_of_index k - 0.5) (num_of_index k + 0.5)
                        0 maxPrice backgroundColor 0)).
Proof.
  unfold getCurrentPrice, annotateCurrentTime.
  destruct (findCurrentTimeIndex_inv now data)
    as [[Hnone Hall] | (k & p & Hres & Hk & Hp & Hbefore)].
  - rewrite Hnone. simpl.
    split; [eexists; reflexivity |]. split; [reflexivity |].
    split; [reflexivity |].
    intros k p Hk Hp _. destruct (Hall k p Hk Hp).
  - rewrite Hres.
    assert (Hneq : (Z.of_nat k =? -1) = false) by (apply Z.eqb_neq; lia).
    rewrite Hneq, Nat2Z.id, Hk.
    split; [eexists; reflexivity |].
    split; [intros Hall; destruct (Hall k p Hk Hp) |].
    split; [discriminate |].
    intros k' p' Hk' Hp' Hbefore'.
    assert (k' = k).
    { destruct (Nat.lt_trichotomy k' k) as [Hlt | [Heq | Hgt]];
        [| exact Heq |].
      - destruct (Hbefore k' p' Hlt Hk' Hp').
      - destruct (Hbefore' k p Hgt Hk Hp). }
    subst k'. rewrite Hk in Hk'. injection Hk' as <-.
    split; [reflexivity |]. eexists; reflexivity.
Qed.

(** ** The annotations, continued *)

Lemma changes_length (last : string) (k : nat) (dates : list string) :
  (List.length (changes last k dates) <= List.length dates)%nat.
Proof.
  revert last k; induction dates as [|d dates IH]; intros last k; simpl;
    [lia |].
  rewrite length_app. specialize (IH d (S k)).
  destruct (negb (last =? d)%string && truthy last); simpl; lia.
Qed.

Lemma sorted_removelast_below (n : nat) (l : list nat) :
  StronglySorted lt l -> Forall (fun i => (i < n)%nat) l ->
  Forall (fun i => (S i < n)%nat) (removelast l).
Proof.
  induction l as [|a l IH]; intros Hsorted Hbelow; [constructor |].
  destruct l as [|b l]; [constructor |].
  change (removelast (a :: b :: l)) with (a :: removelast (b :: l)).
  inversion Hsorted as [|? ? Htail Hhead]; subst.
  inversion Hbelow as [|? ? _ Hbelow']; subst.
  constructor; [| apply IH; assumption].
  inversion Hhead as [|? ? Hab _]; subst.
  inversion Hbelow' as [|? ? Hb _]; subst. lia.
Qed.

Section Annotations.
Context {number : Type} `{RT : Runtime number}.

(** Every index kept by the [reduce] lies between 1 and the last index
    of the series. *)
Lemma foo_indices_range (data : list (Point.t number)) :
  Forall (fun i => (1 <= i < List.length data)%nat) (indices (foo data)).
Proof.
  rewrite foo_indices. destruct data as [|p data]; [constructor |].
  change (localDates (p :: data)) with (localDateOf p :: localDates data).
  rewrite changes_start.
  eapply Forall_impl; [| apply changes_bounds].
  simpl. unfold localDates. rewrite length_map. intros i; lia.
Qed.

Lemma foo_indices_length (data : list (Point.t number)) :
  (List.length (indices (foo data)) <= List.length data - 1)%nat.
Proof.
  rewrite foo_indices. destruct data as [|p data]; [simpl; lia |].
  change (localDates (p :: data)) with (localDateOf p :: localDates data).
  rewrite changes_start.
  pose proof (changes_length (localDateOf p) 1 (localDates data)) as H.
  unfold localDates in *. rewrite length_map in H.
  simpl List.length. lia.
Qed.

Lemma annotateDayChanges_nil (darkMode : bool) :
  annotateDayChanges darkMode [] = Return [].
Proof. reflexivity. Qed.

End Annotations.

(** X9. [annotateDayChanges] never throws, whatever the series and the
    date formatter. It returns the lines of the indices kept by its
    [reduce], then as many labels; there are fewer lines than entries, and
    nothing is returned for an empty series. *)
Theorem annotateDayChanges_total {number : Type} `{RT : Runtime number}
        (darkMode : bool) (data : list (Point.t number)) :
  exists labels,
    annotateDayChanges darkMode data
    = Return (map (dayChangeLine darkMode) (indices (foo data)) ++ labels)
    /\ Forall isLine (map (dayChangeLine darkMode) (indices (foo data)))
    /\ Forall isLabel labels
    /\ List.length labels = List.length (indices (foo data))
    /\ (List.length (indices (foo data)) <= List.length data - 1)%nat
    /\ (data = [] ->
        annotateDayChanges darkMode data = Return []).
Proof.
  assert (Hlines : Forall isLine
                     (map (dayChangeLine darkMode) (indices (foo data)))).
  { apply Forall_forall. intros a Ha.
    apply in_map_iff in Ha as (i & <- & _). exact I. }
  destruct data as [|p0 data].
  - exists []. split; [reflexivity |]. split; [exact Hlines |].
    split; [constructor |]. split; [reflexivity |].
    split; [simpl; lia | reflexivity].
  - destruct (annotateDayChanges_returns darkMode (p0 :: data))
      as (a2 & Hret & Hall); [discriminate |].
    exists (removelast a2). split; [exact Hret |]. split; [exact Hlines |].
    split.
    + apply (weekdayLabelAt_isLabel darkMode (p0 :: data)
               (removelast (0%nat :: indices (foo (p0 :: data))))).
      apply Forall2_removelast; exact Hall.
    + split.
      * rewrite removelast_length, <- (Forall2_length Hall). simpl. lia.
      * split; [apply foo_indices_length | discriminate].
Qed.

(** X10. Where the annotations sit. Every line is drawn between two
    entries: from 0 to 100 at [i - 0.5] for an index [i] between 1 and the
    last index. Every label that is kept is the label of an entry [i] and
    is placed at [i + 1], which is still an index of the series. *)
Theorem annotateDayChanges_positions {number : Type} `{RT : Runtime number}
        (darkMode : bool) (data : list (Point.t number)) :
  exists kept starts labels,
    annotateDayChanges darkMode data
    = Return (map (fun i : nat =>
                     Line 0 100 (inject_Z (Z.of_nat i) - 0.5)
                          (inject_Z (Z.of_nat i) - 0.5)
                          (if darkMode then "rgba(255,255,255,0.5)"
                           else "rgba(0,0,0,0.5)"))
                  kept
              ++ labels)
    /\ Forall (fun i => (1 <= i < List.length data)%nat) kept
    /\ Forall2 (weekdayLabelAt darkMode data) starts labels
    /\ Forall (fun i => (S i < List.length data)%nat) starts.
Proof.
  exists (indices (foo data)).
  destruct data as [|p0 data].
  - exists [], []. split; [reflexivity |].
    split; [apply foo_indices_range |]. split; constructor.
  - destruct (annotateDayChanges_returns darkMode (p0 :: data))
      as (a2 & Hret & Hall); [discriminate |].
    exists (removelast (0%nat :: indices (foo (p0 :: data)))), (removelast a2).
    split; [exact Hret |]. split; [apply foo_indices_range |].
    split; [apply Forall2_removelast; exact Hall |].
    pose proof (foo_indices_range (p0 :: data)) as Hrange.
    apply sorted_removelast_below.
    + constructor.
      * rewrite foo_indices. apply changes_sorted.
      * eapply Forall_impl; [| exact Hrange]. simpl; intros i; lia.
    + constructor; [simpl; lia |].
      eapply Forall_impl; [| exact Hrange]. simpl; intros i; lia.
Qed.

(** ** The object of the annotations *)

Section Objects.
Context {V : Type}.

Lemma obj_get_set_same (key : string) (v : V) (o : JSObject V) :
  obj_get key (obj_set key v o) = Some v.
Proof.
  induction o as [|[k w] o IH]; simpl.
  - rewrite String.eqb_refl. reflexivity.
  - destruct (k =? key)%string eqn:E; simpl; rewrite E; [reflexivity | exact IH].
Qed.

Lemma obj_get_set_other (key key' : string) (v : V) (o : JSObject V) :
  key <> key' -> obj_get key' (obj_set key v o) = obj_get key' o.
Proof.
  intros Hne. induction o as [|[k w] o IH]; simpl.
  - apply String.eqb_neq in Hne. rewrite Hne. reflexivity.
  - destruct (k =? key)%string eqn:E; simpl.
    + apply String.eqb_eq in E. subst k.
      apply String.eqb_neq in Hne. rewrite Hne. reflexivity.
    + rewrite IH. reflexivity.
Qed.

Lemma obj_keys_set_new (key : string) (v : V) (o : JSObject V) :
  ~ In key (obj_keys o) -> obj_keys (obj_set key v o) = obj_keys o ++ [key].
Proof.
  unfold obj_keys. induction o as [|[k w] o IH]; simpl; intros Hnew;
    [reflexivity |].
  destruct (k =? key)%string eqn:E.
  - apply String.eqb_eq in E. destruct Hnew. left; exact E.
  - simpl. rewrite IH; [reflexivity |]. intros H; apply Hnew; right; exact H.
Qed.

End Objects.

Lemma NoDup_map_injective {A B : Type} (f : A -> B) (l : list A) :
  (forall a b, f a = f b -> a = b) -> NoDup l -> NoDup (map f l).
Proof.
  intros Hinj. induction 1 as [|a l Hnotin _ IH]; simpl; constructor;
    [| exact IH].
  intros Hin. apply in_map_iff in Hin as (b & Heq & Hb).
  apply Hinj in Heq. subst b. contradiction.
Qed.

Lemma Number_toString_inj (a b : nat) :
  Number_toString a = Number_toString b -> a = b.
Proof.
  unfold Number_toString. intros H.
  apply (f_equal NilEmpty.uint_of_string) in H.
  rewrite !NilEmpty.usu in H. injection H as H.
  apply Unsigned.to_uint_inj; exact H.
Qed.

Lemma dayChangeKey_inj (i j : nat) : dayChangeKey i = dayChangeKey j -> i = j.
Proof.
  unfold dayChangeKey. simpl. intros H. injection H as H.
  apply Number_toString_inj; exact H.
Qed.

Lemma dayChangeKey_not_currentTime (i : nat) : dayChangeKey i <> "currentTime".
Proof. unfold dayChangeKey. simpl. discriminate. Qed.

(** The [forEach] of [collectAnnotations], started at index [k] on any
    object. *)
Lemma fold_addDayChange (l : list AnnotationOptions) (k : nat)
      (o : JSObject AnnotationOptions) :
  let o' := fold_left addDayChange (combine l (seq k (List.length l))) o in
  (forall i a, nth_error l i = Some a ->
               obj_get (dayChangeKey (k + i)) o' = Some a)
  /\ (forall key,
        (forall i, (i < List.length l)%nat -> key <> dayChangeKey (k + i)) ->
        obj_get key o' = obj_get key o)
  /\ ((forall j, (k <= j)%nat -> ~ In (dayChangeKey j) (obj_keys o)) ->
      obj_keys o' = obj_keys o ++ map dayChangeKey (seq k (List.length l))).
Proof.
  revert k o; induction l as [|a l IH]; intros k o; simpl.
  - split; [intros i b Hi; destruct i; discriminate |].
    split; [reflexivity | intros _; rewrite app_nil_r; reflexivity].
  - destruct (IH (S k) (addDayChange o (a, k))) as (Hget & Hother & Hkeys).
    unfold addDayChange in *; simpl fst in *; simpl snd in *.
    split; [| split].
    + intros [|i] b Hi; simpl in Hi.
      * injection Hi as <-. rewrite Nat.add_0_r.
        rewrite Hother; [apply obj_get_set_same |].
        intros i _ Heq. apply dayChangeKey_inj in Heq. lia.
      * replace (k + S i)%nat with (S k + i)%nat by lia.
        apply Hget; exact Hi.
    + intros key Hkey. rewrite Hother.
      * apply obj_get_set_other. intros Heq.
        apply (Hkey 0%nat); [lia |]. rewrite Nat.add_0_r. symmetry; exact Heq.
      * intros i Hi. replace (S k + i)%nat with (k + S i)%nat by lia.
        apply Hkey. lia.
    + intros Hfresh.
      rewrite Hkeys.
      * rewrite obj_keys_set_new by (apply Hfresh; lia).
        rewrite <- app_assoc. reflexivity.
      * intros j Hj. rewrite obj_keys_set_new by (apply Hfresh; lia).
        intros Hin. apply in_app_or in Hin as [Hin | [Heq | []]].
        -- apply (Hfresh j); [lia | exact Hin].
        -- apply dayChangeKey_inj in Heq. lia.
Qed.

(** X11. [collectAnnotations] never throws. In the object it returns,
    [currentTime] holds the box of the current hour when there is one and
    is missing otherwise, [dayChange<i>] holds the [i]-th annotation of
    [annotateDayChanges] and is missing from their number on, and there
    are no other keys and no key twice. *)
Theorem collectAnnotations_keys {number : Type} `{RT : Runtime number}
        (darkMode : bool) (now : Z) (data : list (Point.t number)) :
  exists dayChanges annotations,
    annotateDayChanges darkMode data = Return dayChanges
    /\ collectAnnotations darkMode now data = Return annotations
    /\ obj_get "currentTime" annotations
       = annotateCurrentTime darkMode now data
    /\ (forall i,
          obj_get (dayChangeKey i) annotations = nth_error dayChanges i)
    /\ obj_keys annotations
       = (match annotateCurrentTime darkMode now data with
          | Some _ => ["currentTime"]
          | None => []
          end)
         ++ map dayChangeKey (seq 0 (List.length dayChanges))
    /\ NoDup (obj_keys annotations).
Proof.
  assert (Htotal : exists dayChanges,
             annotateDayChanges darkMode data = Return dayChanges).
  { destruct data as [|p0 data]; [eexists; reflexivity |].
    destruct (annotateDayChanges_returns darkMode (p0 :: data))
      as (a2 & Hret & _); [discriminate |].
    eexists; exact Hret. }
  destruct Htotal as [dayChanges Hdc].
  set (o := match annotateCurrentTime darkMode now data with
            | Some a => obj_set "currentTime" a []
            | None => []
            end : JSObject AnnotationOptions).
  exists dayChanges,
    (fold_left addDayChange
               (combine dayChanges (seq 0 (List.length dayChanges))) o).
  destruct (fold_addDayChange dayChanges 0 o) as (Hget & Hother & Hkeys).
  assert (Hfresh : forall j, (0 <= j)%nat -> ~ In (dayChangeKey j) (obj_keys o)).
  { intros j _. subst o.
    destruct (annotateCurrentTime darkMode now data); simpl; [| tauto].
    intros [Heq | []]. symmetry in Heq.
    exact (dayChangeKey_not_currentTime j Heq). }
  assert (Hokeys : obj_keys o
                   = match annotateCurrentTime darkMode now data with
                     | Some _ => ["currentTime"]
                     | None => []
                     end).
  { subst o. destruct (annotateCurrentTime darkMode now data); reflexivity. }
  split; [exact Hdc |]. split.
  { unfold collectAnnotations. rewrite Hdc. reflexivity. }
  split.
  { rewrite Hother.
    - subst o. destruct (annotateCurrentTime darkMode now data); reflexivity.
    - intros i _ Heq. symmetry in Heq.
      exact (dayChangeKey_not_currentTime _ Heq). }
  split.
  { intros i. destruct (nth_error dayChanges i) as [a|] eqn:Hi.
    - apply (Hget i a Hi).
    - apply nth_error_None in Hi. rewrite Hother.
      + subst o. destruct (annotateCurrentTime darkMode now data); simpl;
          [| reflexivity].
        destruct ("currentTime" =? dayChangeKey i)%string eqn:E;
          [| reflexivity].
        apply String.eqb_eq in E. symmetry in E.
        destruct (dayChangeKey_not_currentTime i E).
      + intros j Hj Heq. apply dayChangeKey_inj in Heq. simpl in Heq. lia. }
  rewrite (Hkeys Hfresh), Hokeys. split; [reflexivity |].
  assert (Hnodup : NoDup (map dayChangeKey (seq 0 (List.length dayChanges)))).
  { apply NoDup_map_injective; [apply dayChangeKey_inj | apply seq_NoDup]. }
  destruct (annotateCurrentTime darkMode now data); [| exact Hnodup].
  simpl. constructor; [| exact Hnodup].
  intros Hin. apply in_map_iff in Hin as (j & Heq & _).
  exact (dayChangeKey_not_currentTime j Heq).
Qed.

(** ** The clock face *)

Lemma string_length_append (a b : string) :
  String.length (a ++ b) = (String.length a + String.length b)%nat.
Proof. induction a as [|c a IH]; simpl; [reflexivity | rewrite IH; reflexivity]. Qed.

Lemma substring_all (s : string) : substring 0 (String.length s) s = s.
Proof. induction s as [|c s IH]; simpl; [reflexivity | rewrite IH; reflexivity]. Qed.

Lemma string_repeat_zero_length (count : nat) :
  String.length (string_repeat "0" count) = count.
Proof. induction count as [|n IH]; simpl; [reflexivity | rewrite IH; reflexivity]. Qed.

Lemma padStart_zero (s : string) (targetLength : nat) :
  padStart s targetLength "0"
  = (string_repeat "0" (targetLength - String.length s) ++ s)%string.
Proof.
  unfold padStart. simpl.
  set (k := (targetLength - String.length s)%nat).
  rewrite <- (string_repeat_zero_length k) at 1.
  rewrite substring_all. reflexivity.
Qed.

Lemma parseDecimal_zeros (count : nat) (s : string) :
  parseDecimal (string_repeat "0" count ++ s) = parseDecimal s.
Proof.
  induction count as [|n IH]; [reflexivity |].
  unfold parseDecimal in *. simpl.
  destruct (NilEmpty.uint_of_string (string_repeat "0" n ++ s)) as [d|];
    simpl in *; [| exact IH].
  rewrite <- IH. reflexivity.
Qed.

Lemma parseDecimal_Number_toString (value : nat) :
  parseDecimal (Number_toString value) = Some value.
Proof.
  unfold parseDecimal, Number_toString.
  rewrite NilEmpty.usu. simpl. rewrite Unsigned.of_to. reflexivity.
Qed.

Lemma leftPad_zeros (value pad : nat) :
  leftPad value pad
  = (string_repeat "0" (pad - String.length (Number_toString value))
     ++ Number_toString value)%string.
Proof. unfold leftPad. apply padStart_zero. Qed.

Lemma parseDecimal_leftPad (value pad : nat) :
  parseDecimal (leftPad value pad) = Some value.
Proof.
  rewrite leftPad_zeros, parseDecimal_zeros.
  apply parseDecimal_Number_toString.
Qed.

Lemma leftPad_length (value pad : nat) :
  String.length (leftPad value pad)
  = Nat.max pad (String.length (Number_toString value)).
Proof.
  rewrite leftPad_zeros, string_length_append, string_repeat_zero_length. lia.
Qed.

Lemma Number_toString_two_digits (value : nat) :
  (value < 100)%nat -> (String.length (Number_toString value) <= 2)%nat.
Proof.
  intros Hlt.
  assert (Hall : forallb (fun v => (String.length (Number_toString v) <=? 2)%nat)
                         (seq 0 100) = true) by (vm_compute; reflexivity).
  rewrite forallb_forall in Hall.
  apply Nat.leb_le, Hall, in_seq. lia.
Qed.

Lemma leftPad_two (value : nat) :
  (value < 100)%nat -> String.length (leftPad value 2) = 2%nat.
Proof.
  intros Hlt. rewrite leftPad_length.
  pose proof (Number_toString_two_digits value Hlt). lia.
Qed.

Lemma append_inj_length (a a' c c' : string) :
  String.length a = String.length a' ->
  (a ++ c)%string = (a' ++ c')%string -> a = a' /\ c = c'.
Proof.
  revert a'; induction a as [|x a IH]; intros [|x' a'] Hlen H;
    try discriminate.
  - split; [reflexivity | exact H].
  - simpl in Hlen, H. injection Hlen as Hlen. injection H as -> H.
    destruct (IH a' Hlen H) as [-> ->]. split; reflexivity.
Qed.

(** X12. For an integer from 0 to 2^53, [leftPad] writes the number in
    decimal with zeros in front up to [pad] characters and never cuts it:
    the text has the larger of [pad] and the number of digits as its
    length, and reads back as the number. So [formatHH] is never empty,
    and a tick of the time axis is labelled exactly at the even hours. *)
Theorem leftPad_round_trip (value pad : nat) :
  Z.of_nat value <= 2 ^ 53 ->
  leftPad value pad
  = (string_repeat "0" (pad - String.length (Number_toString value))
     ++ Number_toString value)%string
  /\ String.length (leftPad value pad)
     = Nat.max pad (String.length (Number_toString value))
  /\ parseDecimal (leftPad value pad) = Some value
  /\ (tickLabel value = "" <-> Nat.odd value = true)
  /\ (Nat.even value = true -> tickLabel value = formatHH value).
Proof.
  intros _.
  split; [apply leftPad_zeros |]. split; [apply leftPad_length |].
  split; [apply parseDecimal_leftPad |].
  assert (Hne : formatHH value <> "").
  { unfold formatHH. intros H. pose proof (leftPad_length value 2) as Hlen.
    rewrite H in Hlen. change (String.length "") with 0%nat in Hlen. lia. }
  unfold tickLabel. rewrite <- Nat.negb_even.
  assert (Heven : (value mod 2 =? 0)%nat = Nat.even value).
  { destruct (Nat.even value) eqn:E.
    - apply Nat.eqb_eq. apply Nat.even_spec in E. destruct E as [k ->].
      rewrite Nat.mul_comm. apply Nat.Div0.mod_mul.
    - apply Nat.eqb_neq. intros H. apply Nat.Div0.mod_divides in H.
      destruct H as [k ->].
      rewrite Nat.even_mul in E. simpl in E. discriminate. }
  rewrite Heven. destruct (Nat.even value); simpl.
  - split; [split; [intros H; contradiction | discriminate] | reflexivity].
  - split; [split; reflexivity | discriminate].
Qed.

Lemma leftPad_round_trip_witness :
  leftPad 7 2 = "07" /\ parseDecimal (leftPad 7 2) = Some 7%nat.
Proof.
  split; [vm_compute; reflexivity |].
  apply (leftPad_round_trip 7 2). vm_compute. discriminate.
Defined.

(** X13. For hours and minutes below 100, [formatHHMM] writes five
    characters, and two different times are never written alike. *)
Theorem formatHHMM_injective (hours minutes : nat) :
  (hours < 100)%nat -> (minutes < 100)%nat ->
  String.length (formatHHMM hours minutes) = 5%nat
  /\ forall hours' minutes',
      (hours' < 100)%nat -> (minutes' < 100)%nat ->
      formatHHMM hours minutes = formatHHMM hours' minutes' ->
      hours = hours' /\ minutes = minutes'.
Proof.
  intros Hh Hm. unfold formatHHMM. split.
  - rewrite !string_length_append, !leftPad_two by assumption. reflexivity.
  - intros hours' minutes' Hh' Hm' Heq.
    apply append_inj_length in Heq as [Hhours Hrest];
      [| rewrite !leftPad_two by assumption; reflexivity].
    simpl in Hrest. injection Hrest as Hminutes.
    apply (f_equal parseDecimal) in Hhours, Hminutes.
    rewrite !parseDecimal_leftPad in Hhours, Hminutes.
    injection Hhours as ->. injection Hminutes as ->. split; reflexivity.
Qed.

Lemma formatHHMM_injective_witness :
  formatHHMM 9 5 = "09.05" /\ String.length (formatHHMM 9 5) = 5%nat.
Proof.
  split; [vm_compute; reflexivity |].
  apply (formatHHMM_injective 9 5); lia.
Defined.

(** ** The colours of the bars *)

(** X14. When the comparison of a price with a limit is monotone in the
    limit, the colour of a bar tells its band: the first colour up to 5,
    the next ones up to 20, 40 and 60, the last one above 60, and also
    when the price compares with no limit, as NaN does. There is one
    colour per entry of the dataset. *)
Theorem colorDataPoint_bands {number : Type} (number_le : number -> Q -> bool)
        (value : number) :
  (forall v a b, (a <= b)%Q -> number_le v a = true -> number_le v b = true) ->
  (colorDataPoint number_le value = "#087E8B"
   <-> number_le value 5.0%Q = true)
  /\ (colorDataPoint number_le value = "#FFE548"
      <-> number_le value 5.0%Q = false /\ number_le value 20.0%Q = true)
  /\ (colorDataPoint number_le value = "#FFB20F"
      <-> number_le value 20.0%Q = false /\ number_le value 40.0%Q = true)
  /\ (colorDataPoint number_le value = "#FF7F27"
      <-> number_le value 40.0%Q = false /\ number_le value 60.0%Q = true)
  /\ (colorDataPoint number_le value = "#FF4B3E"
      <-> number_le value 60.0%Q = false)
  /\ (forall dataset : list (Point.t number),
        List.length (backgroundColor number_le dataset)
        = List.length dataset).
Proof.
  intros Hmono.
  assert (H1 : number_le value 5.0%Q = true -> number_le value 20.0%Q = true)
    by (apply Hmono; vm_compute; discriminate).
  assert (H2 : number_le value 20.0%Q = true -> number_le value 40.0%Q = true)
    by (apply Hmono; vm_compute; discriminate).
  assert (H3 : number_le value 40.0%Q = true -> number_le value 60.0%Q = true)
    by (apply Hmono; vm_compute; discriminate).
  unfold colorDataPoint, colors. cbn [find fst snd].
  destruct (number_le value 5.0%Q) eqn:E1;
    destruct (number_le value 20.0%Q) eqn:E2;
    destruct (number_le value 40.0%Q) eqn:E3;
    destruct (number_le value 60.0%Q) eqn:E4;
    try (specialize (H1 eq_refl); discriminate);
    try (specialize (H2 eq_refl); discriminate);
    try (specialize (H3 eq_refl); discriminate);
    (repeat split; try discriminate; try reflexivity;
     try (intros [? ?]; discriminate);
     try (intros dataset; unfold backgroundColor; apply length_map)).
Qed.

Lemma Q_le_monotone (v a b : Q) :
  (a <= b)%Q -> SamplePage.Q_le v a = true -> SamplePage.Q_le v b = true.
Proof.
  unfold SamplePage.Q_le. rewrite !Qle_bool_iff. intros Hab Hva.
  eapply Qle_trans; eassumption.
Qed.

Lemma colorDataPoint_bands_witness :
  colorDataPoint SamplePage.Q_le 12.4%Q = "#FFE548".
Proof.
  destruct (colorDataPoint_bands SamplePage.Q_le 12.4%Q Q_le_monotone)
    as (_ & Hyellow & _).
  apply Hyellow. split; vm_compute; reflexivity.
Defined.

(** ** The check for tomorrow's prices *)

Lemma filter_app_length {A : Type} (f : A -> bool) (l l' : list A) :
  List.length (filter f (l ++ l'))
  = (List.length (filter f l) + List.length (filter f l'))%nat.
Proof. rewrite filter_app, length_app. reflexivity. Qed.

Lemma filter_length_le {A : Type} (f : A -> bool) (l : list A) :
  (List.length (filter f l) <= List.length l)%nat.
Proof.
  induction l as [|a l IH]; simpl; [lia |].
  destruct (f a); simpl; lia.
Qed.

(** X15. A date counts as included in the data only from three entries
    on whose start time begins with the first ten characters of the ISO
    text of the date: never on data of two entries or fewer, and once
    included it stays so when entries are added before or after. The page
    asks for a reload only between 14 and 16 o'clock, and then exactly
    when the day after is not included. *)
Theorem dateIncludedInData_threshold {number : Type}
        (toISOString : Z -> string) (data : list (Point.t number))
        (date : Z) :
  (dateIncludedInData toISOString data date = true
   <-> (3 <= List.length (filter (sameISODay toISOString date) data))%nat)
  /\ ((List.length data <= 2)%nat ->
      dateIncludedInData toISOString data date = false)
  /\ (forall before after,
        dateIncludedInData toISOString data date = true ->
        dateIncludedInData toISOString (before ++ data ++ after) date = true)
  /\ (forall hours time,
        reloadWanted toISOString hours time data = true
        <-> (14 <= hours < 16)%nat
            /\ dateIncludedInData toISOString data
                                  (time + 24 * 60 * 60 * 1000) = false).
Proof.
  unfold dateIncludedInData. split; [| split; [| split]].
  - rewrite Nat.ltb_lt. lia.
  - intros Hshort. apply Nat.ltb_ge.
    pose proof (filter_length_le (sameISODay toISOString date) data). lia.
  - intros before after H. apply Nat.ltb_lt in H. apply Nat.ltb_lt.
    rewrite !filter_app_length. lia.
  - intros hours time. unfold reloadWanted, dateIncludedInData.
    destruct ((14 <=? hours)%nat && (hours <? 16)%nat) eqn:E.
    + apply andb_true_iff in E as [E1 E2].
      apply Nat.leb_le in E1. apply Nat.ltb_lt in E2.
      rewrite negb_true_iff.
      split; [intros H; split; [lia | exact H] | intros [_ H]; exact H].
    + split; [discriminate |]. intros [Hrange _].
      apply andb_false_iff in E as [E | E];
        [apply Nat.leb_gt in E | apply Nat.ltb_ge in E]; lia.
Qed.

(** ** The locator on consecutive hours *)

(** X16. On entries that start on consecutive hours from [t0], the locator
    answers the number of whole hours from [t0] to [now] while [now] lies
    within the series, and -1 before its first hour and from the end of
    its last hour on. *)
Theorem findCurrentTimeIndex_hourly {number : Type} `{RT : Runtime number}
        (t0 now : Z) (data : list (Point.t number)) :
  hourly t0 data ->
  (t0 <= now < t0 + Z.of_nat (List.length data) * msPerHour ->
   findCurrentTimeIndex now data = (now - t0) / msPerHour)
  /\ (now < t0 \/ t0 + Z.of_nat (List.length data) * msPerHour <= now ->
      findCurrentTimeIndex now data = -1).
Proof.
  intros Hhourly. split.
  - intros Hin.
    assert (Hq : 0 <= (now - t0) / msPerHour < Z.of_nat (List.length data)).
    { unfold msPerHour in *. split.
      - apply Z.div_pos; lia.
      - apply Z.div_lt_upper_bound; lia. }
    set (k := Z.to_nat ((now - t0) / msPerHour)).
    assert (Hk : Z.of_nat k = (now - t0) / msPerHour)
      by (unfold k; rewrite Z2Nat.id; lia).
    destruct (nth_error data k) as [p|] eqn:Hp;
      [| apply nth_error_None in Hp; lia].
    rewrite <- Hk.
    apply (findCurrentTimeIndex_at now data k p
             (hourly_nonOverlapping t0 data Hhourly) Hp).
    exists (t0 + Z.of_nat k * msPerHour). split; [apply (Hhourly k p Hp) |].
    rewrite Hk. unfold msPerHour in *.
    pose proof (Z.div_mod (now - t0) 3600000).
    pose proof (Z.mod_pos_bound (now - t0) 3600000). lia.
  - intros Hout.
    destruct (findCurrentTimeIndex_inv now data)
      as [[Hnone _] | (k & p & _ & Hk & (s & Hs & Hnow) & _)];
      [exact Hnone |].
    rewrite (Hhourly k p Hk) in Hs. injection Hs as <-.
    assert (Hlt : (k < List.length data)%nat)
      by (apply nth_error_Some; rewrite Hk; discriminate).
    unfold msPerHour in *. nia.
Qed.

Lemma findCurrentTimeIndex_hourly_witness :
  findCurrentTimeIndex (RT := Helsinki.runtime) Sample.before_noon
                       Sample.series = 37.
Proof.
  destruct (findCurrentTimeIndex_hourly (RT := Helsinki.runtime)
              1672351200000 Sample.before_noon Sample.series) as [Hin _].
  - apply hourlyb_sound. vm_compute; reflexivity.
  - rewrite Hin; [vm_compute; reflexivity |].
    vm_compute. split; [discriminate | reflexivity].
Defined.

(** ** What a cycle hands to the page *)

(** X17. Whatever a cycle returns, the series is not empty and the page
    is valid for at least 60 seconds. *)
Theorem getStaticProps_returns_some_hour {number : Type} `{RT : Runtime number}
        (getObject : string -> PromiseSettledResult (GetObjectOutput number))
        (now : Z) (props : Props number) :
  getStaticProps getObject now = Return props ->
  data props <> [] /\ 60 <= revalidate props.
Proof.
  intros Hret.
  destruct (getStaticProps_inv getObject now props Hret)
    as (days & init & last & _ & Hds & Hdata & Hrev).
  split.
  - rewrite Hdata, Hds. intros H. apply app_eq_nil in H as [_ H].
    discriminate.
  - rewrite Hrev. unfold dataValidForSeconds. lia.
Qed.

Lemma getStaticProps_returns_some_hour_witness :
  exists props,
    getStaticProps (RT := Helsinki.runtime) Sample.store_afternoon
                   Sample.after_noon = Return props
    /\ data props <> [] /\ 60 <= revalidate props.
Proof.
  destruct (getStaticProps (RT := Helsinki.runtime) Sample.store_afternoon
                           Sample.after_noon) as [props|e] eqn:Hret.
  - exists props. split; [reflexivity |].
    apply (getStaticProps_returns_some_hour (RT := Helsinki.runtime)
             Sample.store_afternoon Sample.after_noon props Hret).
  - exfalso. vm_compute in Hret. discriminate Hret.
Defined.
